(** * remcmd.py: command execution over SSH

    A shallow embedding of [src/remcmd.py], the [RemoteCommand] class that
    runs one shell command on a remote host through a Fabric connection,
    and the properties of its life cycle: what [run] submits, how the PID
    line is split from the command output, which errors the operations
    raise and which fields they touch.

    Python text is modelled as [string]; each character stands for one
    code point below 256.  Integers are [Z].  The object [self] is a
    record, the operations are state transformers over that record, the
    remote side and the console. *)

From Stdlib Require Import String Ascii List ZArith Bool Lia.
From Stdlib Require Import Decimal DecimalString DecimalZ.
Import ListNotations.

Local Open Scope list_scope.
Local Open Scope string_scope.

(** ** Text primitives of the interpreter *)

Module PyStr.

Definition nl : ascii := "010"%char.

(** The one-character text with a line feed, Python's ['\n']. *)
Definition NL : string := String nl EmptyString.

(** [s.split('\n')]: the pieces of [s] between line feeds.  The result
    is never empty: a text without line feed is its own single piece. *)
Fixpoint split_nl (s : string) : list string :=
  match s with
  | EmptyString => [EmptyString]
  | String c r =>
      if Ascii.eqb c nl then EmptyString :: split_nl r
      else match split_nl r with
           | h :: t => String c h :: t
           | [] => [String c EmptyString]
           end
  end.

(** ["\n".join(ls)]. *)
Definition join_nl (ls : list string) : string := String.concat NL ls.

(** [c in s] for a single character. *)
Fixpoint mem (c : ascii) (s : string) : bool :=
  match s with
  | EmptyString => false
  | String d r => Ascii.eqb c d || mem c r
  end.

(** [str(n)] for an integer [n]: decimal digits, a minus sign when negative. *)
Definition str_of_int (n : Z) : string := NilZero.string_of_int (Z.to_int n).

End PyStr.

(** ** [int(text)] *)

Module PyInt.

(** White space skipped by [int] around the literal: the ASCII blanks
    and, among the code points below 256, NEL and the no-break space. *)
Definition is_space (c : ascii) : bool :=
  let n := nat_of_ascii c in
  (((9 <=? n) && (n <=? 13)) || (n =? 32) || (n =? 133) || (n =? 160))%nat.

Definition digit_of (c : ascii) : option (uint -> uint) :=
  match c with
  | "0"%char => Some D0 | "1"%char => Some D1 | "2"%char => Some D2
  | "3"%char => Some D3 | "4"%char => Some D4 | "5"%char => Some D5
  | "6"%char => Some D6 | "7"%char => Some D7 | "8"%char => Some D8
  | "9"%char => Some D9
  | _ => None
  end.

Fixpoint lstrip (s : string) : string :=
  match s with
  | String c r => if is_space c then lstrip r else s
  | EmptyString => EmptyString
  end.

Fixpoint all_space (s : string) : bool :=
  match s with
  | String c r => is_space c && all_space r
  | EmptyString => true
  end.

(** What the scanner saw last. *)
Inductive prev_char := Start | Digit | Underscore.

(** The run of digits and underscores at the head of [s]: at least one
    digit, no underscore first or last, no two underscores in a row.
    Returns the digits, most significant first, and the unread rest. *)
Fixpoint scan (s : string) (prev : prev_char) : option (uint * string) :=
  match s with
  | String c r =>
      match digit_of c with
      | Some d =>
          match scan r Digit with
          | Some (u, rest) => Some (d u, rest)
          | None => None
          end
      | None =>
          if Ascii.eqb c "_"%char then
            match prev with
            | Digit => scan r Underscore
            | _ => None
            end
          else
            match prev with
            | Digit => Some (Nil, s)
            | _ => None
            end
      end
  | EmptyString =>
      match prev with
      | Digit => Some (Nil, EmptyString)
      | _ => None
      end
  end.

(** The optional sign in front of the digits. *)
Definition sign (s : string) : bool * string :=
  match s with
  | String "+"%char r => (false, r)
  | String "-"%char r => (true, r)
  | _ => (false, s)
  end.

(** Above this many digits the interpreter consults its digit limit. *)
Definition max_str_digits_threshold : nat := 640.

(** [too_long limit n]: a literal of [n] digits is refused under the
    interpreter's [int_max_str_digits] setting [limit] (0: no limit). *)
Definition too_long (limit n : nat) : bool :=
  (max_str_digits_threshold <? n)%nat && (0 <? limit)%nat && (limit <? n)%nat.

(** [int(s)] in base 10; [None] stands for the [ValueError]. *)
Definition int_of_str (limit : nat) (s : string) : option Z :=
  let (neg, body) := sign (lstrip s) in
  match scan body Start with
  | Some (u, rest) =>
      if all_space rest && negb (too_long limit (nb_digits u))
      then Some (Z.of_int (if neg then Neg u else Pos u))
      else None
  | None => None
  end.

(** *** The literals [int] accepts, as the language reference words them

    "Optionally, the string can be preceded by + or - (with no space in
    between), have leading zeros, be surrounded by whitespace, and have
    single underscores interspersed between digits." *)

(** A digit, then more digits, each with at most one underscore in front;
    [u] are the digits, most significant first. *)
Inductive digits_run : string -> uint -> Prop :=
| run_last (c : ascii) (d : uint -> uint) :
    digit_of c = Some d -> digits_run (String c "") (d Nil)
| run_digit (c : ascii) (d : uint -> uint) (s : string) (u : uint) :
    digit_of c = Some d -> digits_run s u -> digits_run (String c s) (d u)
| run_underscore (c : ascii) (d : uint -> uint) (s : string) (u : uint) :
    digit_of c = Some d -> digits_run s u ->
    digits_run (String c (String "_" s)) (d u).

(** The sign in front, and whether it negates. *)
Inductive sign_text : string -> bool -> Prop :=
| no_sign : sign_text "" false
| plus_sign : sign_text "+" false
| minus_sign : sign_text "-" true.

(** [int_literal limit s n]: the text [s] is a literal of the integer [n]
    within the digit limit. *)
Definition int_literal (limit : nat) (s : string) (n : Z) : Prop :=
  exists (lead sg body trail : string) (neg : bool) (u : uint),
    s = lead ++ sg ++ body ++ trail
    /\ all_space lead = true
    /\ sign_text sg neg
    /\ digits_run body u
    /\ all_space trail = true
    /\ too_long limit (nb_digits u) = false
    /\ n = Z.of_int (if neg then Neg u else Pos u).

(** Where a run of digits and underscores stops: at the end of the text
    or in front of a character that is neither. *)
Definition stops (s : string) : Prop :=
  match s with
  | EmptyString => True
  | String c _ => digit_of c = None /\ Ascii.eqb c "_" = false
  end.

(** A text that does not begin with white space. *)
Definition starts_unspaced (s : string) : Prop :=
  match s with
  | EmptyString => True
  | String c _ => is_space c = false
  end.

End PyInt.


(** ** The collaborator: Fabric's connection and Invoke's result *)

(** What [Connection.run] returns: the captured streams, the exit status
    and the success flag of the remote shell. *)
Record Result := {
  stdout : string;
  stderr : string;
  return_code : Z;
  ok : bool
}.

(** [connection.Connection(host, user=..., connect_kwargs=...)]: the
    constructor only records its arguments; the network is first touched
    by [run]. *)
Record Connection := {
  conn_host : string;
  conn_user : string;
  connect_kwargs : list (string * string)
}.

(** Exceptions raised inside the collaborator.  [SSHException] stands for
    Paramiko's class and its subclasses, [UnexpectedExit] for Invoke's,
    [OtherFault] for any class that is neither. *)
Inductive fault_class :=
| SSHException
| UnexpectedExit
| OtherFault (name : string).

(** A raised collaborator exception [e], with the text [str(e)]. *)
Record fault := {
  fclass : fault_class;
  fstr : string
}.

Inductive reply :=
| Returned (r : Result)
| Faulted (f : fault).

(** One call of [client.run(command, hide=...)]. *)
Record Invocation := {
  inv_client : Connection;
  inv_command : string;
  inv_hide : bool
}.

(** ** Exceptions and outcomes *)

(** The exceptions an operation of [RemoteCommand] can end with.
    [RemoteCommandException] carries its message, the exception that was
    being handled when it was raised ([__context__]) and whether
    [from None] hid that context ([__suppress_context__]). *)
Inductive exn :=
| RemoteCommandException (msg : string) (context : option fault)
                         (suppress_context : bool)
| Fault (f : fault)             (* a collaborator exception, passed through *)
| AttributeError (attr : string) (* attribute [attr] looked up on [None] *)
| ValueError (literal : string)  (* [int(literal)] refused the text *)
| IndexError
| TypeError.                     (* text + integer *)

Inductive outcome (A : Type) :=
| Return (a : A)
| Raise (e : exn).
Arguments Return {A} a.
Arguments Raise {A} e.

(** A value that is a text or an integer, for the places where the source
    adds operands of different types. *)
Inductive pyval :=
| PStr (s : string)
| PInt (n : Z).

(** The module's globals, set once by [main]. *)
Record Globals := {
  debug : bool;
  print_statistic : bool
}.

(** The fields of a [RemoteCommand] object. *)
Record RemoteCommand := {
  command : string;
  ssh_host : string;
  ssh_user : string;
  ssh_password : option string;
  client : Connection;
  result : option Result;
  kill : option Result
}.

Definition is_rce {A} (o : outcome A) : bool :=
  match o with
  | Raise (RemoteCommandException _ _ _) => true
  | _ => false
  end.

(** An outcome with the context chain of its exception left aside: what
    remains is whether the operation raised, which class and which
    message. *)
Definition erase_context {A} (o : outcome A) : outcome A :=
  match o with
  | Raise (RemoteCommandException msg _ _) =>
      Raise (RemoteCommandException msg None false)
  | _ => o
  end.

Definition is_raise {A} (o : outcome A) : bool :=
  match o with
  | Raise _ => true
  | Return _ => false
  end.

(** Lines 11-12: the globals of the module when it is loaded. *)
Definition initial_globals : Globals :=
  {| debug := false; print_statistic := false |}.

(** Lines 36-42 of [main]: a count of [-v] flags raises the globals and
    never lowers them.  At 2 or more both are set; at 1
    [print_statistic] is set and [debug] stays as it was; below 1 both
    stay as they were. *)
Definition raise_globals (verbosity : Z) (g : Globals) : Globals :=
  if (2 <=? verbosity)%Z then {| debug := true; print_statistic := true |}
  else if (1 <=? verbosity)%Z
       then {| debug := debug g; print_statistic := true |}
       else g.

(** ** The operations of [RemoteCommand] *)

Section Operations.

(** The state of the remote side and of the transport, whatever it is. *)
Variable Remote : Type.

(** [session_run c text hide rm]: what [c.run(text, hide=hide)] answers
    when the remote side is in state [rm], and the state it leaves. *)
Variable session_run :
  Connection -> string -> bool -> Remote -> reply * Remote.

(** The interpreter's limit on the digits of an integer literal. *)
Variable int_max_str_digits : nat.

(** [connection_fault host user kwargs]: the exception that
    [connection.Connection(host, user=user, connect_kwargs=kwargs)]
    raises, when it raises one (Fabric refuses, for one, a host text that
    names a user when [user] is given too). *)
Variable connection_fault :
  string -> string -> list (string * string) -> option fault.

(** The object, the remote side, the calls submitted so far to the
    session (oldest first) and the texts printed so far. *)
Record State := {
  this : RemoteCommand;
  remote : Remote;
  sent : list Invocation;
  console : list string
}.

Definition M (A : Type) : Type := State -> outcome A * State.

Definition ret {A} (a : A) : M A := fun st => (Return a, st).

Definition raise {A} (e : exn) : M A := fun st => (Raise e, st).

Definition bind {A B} (m : M A) (k : A -> M B) : M B :=
  fun st =>
    match m st with
    | (Return a, st') => k a st'
    | (Raise e, st') => (Raise e, st')
    end.

Notation "x <- m ;; k" := (bind m (fun x => k))
  (at level 61, m at next level, right associativity).
Notation "m ;; k" := (bind m (fun _ => k))
  (at level 61, right associativity).

(** [try: body except ...: handler]; [handler e] is [None] when no
    clause matches [e]. *)
Definition try_except {A} (body : M A) (handler : exn -> option (M A)) : M A :=
  fun st =>
    match body st with
    | (Return a, st') => (Return a, st')
    | (Raise e, st') =>
        match handler e with
        | Some h => h st'
        | None => (Raise e, st')
        end
    end.

Definition when (b : bool) (m : M unit) : M unit :=
  if b then m else ret tt.

Definition print (s : string) : M unit :=
  fun st =>
    (Return tt,
     {| this := this st; remote := remote st; sent := sent st;
        console := (console st ++ [s])%list |}).

Definition self {A} (field : RemoteCommand -> A) : M A :=
  fun st => (Return (field (this st)), st).

(** [self.result.attr]: the stored result, or the error of looking
    [attr] up on [None]. *)
Definition self_result (attr : string) : M Result :=
  fun st =>
    match result (this st) with
    | Some r => (Return r, st)
    | None => (Raise (AttributeError attr), st)
    end.

Definition self_kill (attr : string) : M Result :=
  fun st =>
    match kill (this st) with
    | Some k => (Return k, st)
    | None => (Raise (AttributeError attr), st)
    end.

Definition set_result (r : option Result) : M unit :=
  fun st =>
    let o := this st in
    (Return tt,
     {| this := {| command := command o; ssh_host := ssh_host o;
                   ssh_user := ssh_user o; ssh_password := ssh_password o;
                   client := client o; result := r; kill := kill o |};
        remote := remote st; sent := sent st; console := console st |}).

Definition set_kill (k : option Result) : M unit :=
  fun st =>
    let o := this st in
    (Return tt,
     {| this := {| command := command o; ssh_host := ssh_host o;
                   ssh_user := ssh_user o; ssh_password := ssh_password o;
                   client := client o; result := result o; kill := k |};
        remote := remote st; sent := sent st; console := console st |}).

(** [self.client.run(text, hide=hide)]: the call is recorded, the remote
    side moves, and the answer is returned or raised. *)
Definition client_run (text : string) (hide : bool) : M Result :=
  fun st =>
    let c := client (this st) in
    let (answer, rm) := session_run c text hide (remote st) in
    let st' :=
      {| this := this st; remote := rm;
         sent := (sent st ++ [{| inv_client := c; inv_command := text;
                                 inv_hide := hide |}])%list;
         console := console st |} in
    match answer with
    | Returned r => (Return r, st')
    | Faulted f => (Raise (Fault f), st')
    end.

(** [ls[0]]. *)
Definition first {A} (ls : list A) : M A :=
  match ls with
  | x :: _ => ret x
  | [] => raise IndexError
  end.

Definition py_int (s : string) : M Z :=
  match PyInt.int_of_str int_max_str_digits s with
  | Some n => ret n
  | None => raise (ValueError s)
  end.

(** [s + v] where [s] is a text. *)
Definition str_add (s : string) (v : pyval) : M string :=
  match v with
  | PStr t => ret (s ++ t)
  | PInt _ => raise TypeError
  end.

(** The clause [except ssh_exception.SSHException as e] of [run], and
    with [also_exit] the clause
    [except (ssh_exception.SSHException, exceptions.UnexpectedExit) as e]
    of [terminate]: both re-raise [RemoteCommandException(str(e))],
    [from None] unless [debug]. *)
Definition reraise (g : Globals) (also_exit : bool) (e : exn) : option (M unit) :=
  match e with
  | Fault f =>
      let caught :=
        match fclass f with
        | SSHException => true
        | UnexpectedExit => also_exit
        | OtherFault _ => false
        end in
      if caught
      then Some (raise (RemoteCommandException (fstr f) (Some f) (negb (debug g))))
      else None
  | _ => None
  end.

(** [RemoteCommand.__init__] when the constructor of the connection on
    line 92 returns, on a remote side [rm] that nothing was submitted to
    yet and an empty console: the object it makes.  ([construct] below is
    the constructor with the case that line 92 raises.) *)
Definition init (g : Globals) (command ssh_host ssh_user : string)
    (ssh_password : option string) (rm : Remote) : State :=
  let connect_options :=
    match ssh_password with
    | None => []
    | Some p => [("password", p)]
    end in
  {| this :=
       {| command := command; ssh_host := ssh_host; ssh_user := ssh_user;
          ssh_password := ssh_password;
          client := {| conn_host := ssh_host; conn_user := ssh_user;
                       connect_kwargs := connect_options |};
          result := None; kill := None |};
     remote := rm;
     sent := [];
     console :=
       if print_statistic g
       then ["Connect to host: " ++ ssh_host ++ PyStr.NL ++ "With user: " ++ ssh_user]
       else [] |}.

(** [RemoteCommand.run]. *)
Definition run (g : Globals) : M unit :=
  try_except
    (when (print_statistic g)
       (c <- self command ;; print ("Run command: " ++ c)) ;;
     c <- self command ;;
     r <- client_run (c ++ " & echo $!") true ;;
     set_result (Some r))
    (reraise g false) ;;
  r <- self_result "ok" ;;
  if negb (ok r)
  then r' <- self_result "stderr" ;;
       raise (RemoteCommandException (stderr r') None false)
  else ret tt.

(** [self.result.stdout.split('\n')[0]]. *)
Definition pid_line : M string :=
  r <- self_result "stdout" ;; first (PyStr.split_nl (stdout r)).

(** ["\n".join(self.result.stdout.split('\n')[1:])]. *)
Definition output_text : M string :=
  r <- self_result "stdout" ;;
  ret (PyStr.join_nl (tl (PyStr.split_nl (stdout r)))).

(** [RemoteCommand.get_pid]. *)
Definition get_pid (g : Globals) : M Z :=
  when (print_statistic g)
    (line <- pid_line ;; print ("PID of process: " ++ line)) ;;
  line <- pid_line ;;
  py_int line.

(** [RemoteCommand.terminate]. *)
Definition terminate (g : Globals) : M unit :=
  pid <- get_pid g ;;
  try_except
    (k <- client_run ("kill " ++ PyStr.str_of_int pid) true ;;
     set_kill (Some k))
    (reraise g true) ;;
  k <- self_kill "ok" ;;
  (if negb (ok k)
   then r <- self_result "stderr" ;;
        raise (RemoteCommandException (stderr r) None false)
   else ret tt) ;;
  when (print_statistic g)
    (k' <- self_kill "return_code" ;;
     line <- str_add ("Process with " ++ PyStr.str_of_int pid
                      ++ " was killed with status ")
                     (PInt (return_code k')) ;;
     print line).

(** [RemoteCommand.get_output]. *)
Definition get_output (g : Globals) : M string :=
  when (print_statistic g)
    (out <- output_text ;; print ("Execution output: " ++ out)) ;;
  output_text.

(** [RemoteCommand.get_exit_code]. *)
Definition get_exit_code (g : Globals) : M Z :=
  when (print_statistic g)
    (r <- self_result "return_code" ;;
     print ("Result code: " ++ PyStr.str_of_int (return_code r))) ;;
  r <- self_result "return_code" ;;
  ret (return_code r).

(** [RemoteCommand(command, ssh_host, ssh_user, ssh_password)]: when the
    constructor of the connection on line 92 raises, [__init__] ends with
    that exception before anything is printed and no object is made. *)
Definition construct (g : Globals) (command ssh_host ssh_user : string)
    (ssh_password : option string) (rm : Remote) : outcome State :=
  match connection_fault ssh_host ssh_user
          (match ssh_password with
           | None => []
           | Some p => [("password", p)]
           end) with
  | Some f => Raise (Fault f)
  | None => Return (init g command ssh_host ssh_user ssh_password rm)
  end.

(** What a call of [main] leaves behind: how it ended, the globals of the
    module, the calls submitted to the session, the lines printed and the
    remote side. *)
Record Ended := {
  ending : outcome unit;
  globals_left : Globals;
  calls : list Invocation;
  printed : list string;
  remote_left : Remote
}.

(** The body of [main] after the arguments are parsed, started with the
    globals [g0] of the module as they are at that moment. *)
Definition main (g0 : Globals) (command host user : string)
    (password : option string) (verbosity : Z) (rm : Remote) : Ended :=
  let g := raise_globals verbosity g0 in
  match construct g command host user password rm with
  | Raise e =>
      {| ending := Raise e; globals_left := g; calls := []; printed := [];
         remote_left := rm |}
  | Return rc =>
      let res :=
        (run g ;;
         _ <- get_pid g ;;
         _ <- get_output g ;;
         _ <- get_exit_code g ;;
         ret tt) rc in
      {| ending := fst res; globals_left := g; calls := sent (snd res);
         printed := console (snd res); remote_left := remote (snd res) |}
  end.

End Operations.

Arguments State Remote : clear implicits.
Arguments this {Remote} s.
Arguments remote {Remote} s.
Arguments sent {Remote} s.
Arguments console {Remote} s.
Arguments init {Remote} g command ssh_host ssh_user ssh_password rm.
Arguments run {Remote} session_run g st.
Arguments pid_line {Remote} st.
Arguments output_text {Remote} st.
Arguments get_pid {Remote} int_max_str_digits g st.
Arguments terminate {Remote} session_run int_max_str_digits g st.
Arguments get_output {Remote} g st.
Arguments get_exit_code {Remote} g st.
Arguments construct {Remote} connection_fault
  g command ssh_host ssh_user ssh_password rm.
Arguments Ended Remote : clear implicits.
Arguments ending {Remote} e.
Arguments globals_left {Remote} e.
Arguments calls {Remote} e.
Arguments printed {Remote} e.
Arguments remote_left {Remote} e.
Arguments main {Remote} session_run int_max_str_digits connection_fault
  g0 command host user password verbosity rm.

(** ** What the session answers *)

Section Answers.

Context {Remote : Type}.
Variable session_run : Connection -> string -> bool -> Remote -> reply * Remote.

(** The answer of the session of [st] to [text], asked with hidden output
    on the remote side as it is in [st]. *)
Definition answer_to (text : string) (st : State Remote) : reply :=
  fst (session_run (client (this st)) text true (remote st)).

(** The remote side after that call. *)
Definition remote_after (text : string) (st : State Remote) : Remote :=
  snd (session_run (client (this st)) text true (remote st)).

(** The record of that call. *)
Definition call (text : string) (st : State Remote) : Invocation :=
  {| inv_client := client (this st); inv_command := text; inv_hide := true |}.

End Answers.

(** The first of the lines of a captured output. *)
Definition first_line (out : string) : string := hd "" (PyStr.split_nl out).

(** The lines after the first, joined again. *)
Definition other_lines (out : string) : string :=
  PyStr.join_nl (tl (PyStr.split_nl out)).

(** The connection parameters of an object: the fields no operation is
    meant to touch. *)
Definition same_parameters (a b : RemoteCommand) : Prop :=
  command a = command b /\ ssh_host a = ssh_host b /\ ssh_user a = ssh_user b
  /\ ssh_password a = ssh_password b /\ client a = client b.

(** ** A scripted session, to run the operations on concrete inputs *)

Module Scripted.

(** The remote side is the list of answers it will give, in order; when
    the list is used up the channel is closed. *)
Definition session (c : Connection) (text : string) (hide : bool)
    (script : list reply) : reply * list reply :=
  match script with
  | answer :: rest => (answer, rest)
  | [] => (Faulted {| fclass := SSHException; fstr := "SSH session not active" |}, [])
  end.

Definition silent : Globals := {| debug := false; print_statistic := false |}.
Definition narrated : Globals := {| debug := false; print_statistic := true |}.

(** The interpreter's default digit limit. *)
Definition limit : nat := 4300.

(** [sleep 5 & echo $!] answered with PID 4242 and no other output. *)
Definition spawned : Result :=
  {| stdout := "4242" ++ PyStr.NL; stderr := ""; return_code := 0; ok := true |}.

(** [echo hello & echo $!]: the PID line, then the command's line. *)
Definition hello : Result :=
  {| stdout := "4242" ++ PyStr.NL ++ "hello" ++ PyStr.NL; stderr := "";
     return_code := 0; ok := true |}.

(** [true # & echo $!]: the comment sign hides the wrapper's suffix, the
    shell succeeds and prints nothing. *)
Definition commented_out : Result :=
  {| stdout := ""; stderr := ""; return_code := 0; ok := true |}.

(** [exit 3 # & echo $!]: the shell leaves with status 3 and prints
    nothing. *)
Definition exited_3 : Result :=
  {| stdout := ""; stderr := ""; return_code := 3; ok := false |}.

(** A wrapper that printed a PID line and then failed. *)
Definition failed_late : Result :=
  {| stdout := "4242" ++ PyStr.NL ++ "partial"; stderr := "sh: 1: oops: not found";
     return_code := 127; ok := false |}.

(** A first line that is no integer. *)
Definition banner : Result :=
  {| stdout := "Last login: Tue" ++ PyStr.NL ++ "4242" ++ PyStr.NL; stderr := "";
     return_code := 0; ok := true |}.

(** A spawned command whose start wrote a warning to standard error. *)
Definition warned : Result :=
  {| stdout := "4242" ++ PyStr.NL; stderr := "warning: low disk space";
     return_code := 0; ok := true |}.

Definition killed : Result :=
  {| stdout := ""; stderr := ""; return_code := 0; ok := true |}.

Definition no_such_process : Result :=
  {| stdout := ""; stderr := "sh: 1: kill: No such process";
     return_code := 1; ok := false |}.

Definition timeout : fault :=
  {| fclass := SSHException; fstr := "Timeout opening channel." |}.

(** A session under a terminal: lines end with a carriage return and a
    line feed. *)
Definition under_pty : Result :=
  {| stdout := "4242" ++ String "013" PyStr.NL ++ "hello" ++ String "013" PyStr.NL;
     stderr := ""; return_code := 0; ok := true |}.

(** Invoke's exception for a command that left with a non-zero status. *)
Definition unexpected_exit : fault :=
  {| fclass := UnexpectedExit; fstr := "Encountered a bad command exit code!" |}.

(** A socket error: not a Paramiko exception. *)
Definition refused : fault :=
  {| fclass := OtherFault "ConnectionRefusedError";
     fstr := "[Errno 111] Connection refused" |}.

(** Fabric's constructor: a host text that names a user is refused when
    the user is given as well, as it always is by [main]. *)
Definition shorthand_clash : fault :=
  {| fclass := OtherFault "ValueError";
     fstr := "You supplied the user via both shorthand and kwarg! Please pick one." |}.

Definition connecting (host user : string) (kwargs : list (string * string))
  : option fault :=
  if PyStr.mem "@"%char host then Some shorthand_clash else None.

(** [echo 1; sleep 5 & echo $!]: the command prints a line of its own
    before the shell prints the PID. *)
Definition own_line_first : Result :=
  {| stdout := "1" ++ PyStr.NL ++ "4242" ++ PyStr.NL; stderr := "";
     return_code := 0; ok := true |}.

(** A fresh object for [command] on a host that follows [script]. *)
Definition fresh (g : Globals) (command : string) (script : list reply)
  : State (list reply) :=
  init g command "10.0.0.7" "john" (Some "secret") script.

(** The state after [run] on such an object. *)
Definition after_run (g : Globals) (command : string) (script : list reply)
  : State (list reply) :=
  snd (run session g (fresh g command script)).

End Scripted.

(** ** Callers: sequences of method calls on one object *)

(** The public methods of [RemoteCommand]. *)
Inductive operation :=
| CallRun
| CallGetPid
| CallTerminate
| CallGetOutput
| CallGetExitCode.

Section Callers.

Context {Remote : Type}.
Variable session_run : Connection -> string -> bool -> Remote -> reply * Remote.
Variable int_max_str_digits : nat.

(** The state a call leaves, whether it returned or raised. *)
Definition perform (g : Globals) (op : operation) (st : State Remote)
  : State Remote :=
  match op with
  | CallRun => snd (run session_run g st)
  | CallGetPid => snd (get_pid int_max_str_digits g st)
  | CallTerminate => snd (terminate session_run int_max_str_digits g st)
  | CallGetOutput => snd (get_output g st)
  | CallGetExitCode => snd (get_exit_code g st)
  end.

(** A caller that makes the calls [ops] one after the other and goes on
    after a call that raised. *)
Definition perform_all (g : Globals) (ops : list operation) (st : State Remote)
  : State Remote :=
  fold_left (fun s op => perform g op s) ops st.

End Callers.

(** The keyword arguments [__init__] passes to the connection. *)
Definition connect_options (ssh_password : option string) : list (string * string) :=
  match ssh_password with
  | None => []
  | Some p => [("password", p)]
  end.

(** The texts the object submits: the wrapper invocation of its command,
    or a kill of some PID. *)
Definition wrapper_or_kill (cmd text : string) : Prop :=
  text = cmd ++ " & echo $!"
  \/ exists pid : Z, text = "kill " ++ PyStr.str_of_int pid.

(** What holds of an object at every point of its life:
    - the connection is the one built from its host, user and password;
    - every call so far went over that connection, with hidden output,
      and was the wrapper invocation or a kill;
    - a stored kill result comes with a stored run result;
    - a stored run result comes with a submitted wrapper invocation. *)
Definition lifecycle {Remote : Type} (st : State Remote) : Prop :=
  client (this st)
  = {| conn_host := ssh_host (this st); conn_user := ssh_user (this st);
       connect_kwargs := connect_options (ssh_password (this st)) |}
  /\ Forall (fun i => inv_client i = client (this st)
                      /\ inv_hide i = true
                      /\ wrapper_or_kill (command (this st)) (inv_command i))
            (sent st)
  /\ (kill (this st) <> None -> result (this st) <> None)
  /\ (result (this st) <> None ->
      In {| inv_client := client (this st);
            inv_command := command (this st) ++ " & echo $!";
            inv_hide := true |} (sent st)).

(** What a narration step adds to the console: its line when
    [print_statistic] is on, nothing otherwise. *)
Definition said (g : Globals) (line : string) : list string :=
  if print_statistic g then [line] else [].

(** The lines [main] prints at verbosity 1 or more when all goes well. *)
Definition transcript (cmd host user : string) (r : Result) : list string :=
  ["Connect to host: " ++ host ++ PyStr.NL ++ "With user: " ++ user;
   "Run command: " ++ cmd;
   "PID of process: " ++ first_line (stdout r);
   "Execution output: " ++ other_lines (stdout r);
   "Result code: " ++ PyStr.str_of_int (return_code r)].

(** ** Facts about splitting and joining lines *)

Module PyStrFacts.
Import PyStr.

Lemma mem_cons (c d : ascii) (r : string) :
  mem c (String d r) = Ascii.eqb c d || mem c r.
Proof. reflexivity. Qed.

Lemma mem_nl_cons (c : ascii) (r : string) :
  mem nl (String c r) = Ascii.eqb c nl || mem nl r.
Proof. rewrite mem_cons, Ascii.eqb_sym. reflexivity. Qed.

Lemma split_nl_not_nil (s : string) : split_nl s <> [].
Proof.
  destruct s as [|c r]; simpl; [discriminate|].
  destruct (Ascii.eqb c nl); [discriminate|].
  destruct (split_nl r); discriminate.
Qed.

Lemma split_nl_cons (c : ascii) (r : string) :
  Ascii.eqb c nl = false ->
  split_nl (String c r) = String c (hd "" (split_nl r)) :: tl (split_nl r).
Proof.
  intros Hc. simpl. rewrite Hc.
  destruct (split_nl r) eqn:E; [|reflexivity].
  exfalso. exact (split_nl_not_nil r E).
Qed.

Lemma join_nl_cons (h : string) (t : list string) :
  t <> [] -> join_nl (h :: t) = h ++ NL ++ join_nl t.
Proof.
  destruct t; [congruence|reflexivity].
Qed.

(** Joining the pieces of a text gives the text back. *)
Lemma join_split (s : string) : join_nl (split_nl s) = s.
Proof.
  induction s as [|c r IH]; [reflexivity|].
  destruct (Ascii.eqb c nl) eqn:Hc.
  - simpl. rewrite Hc. apply Ascii.eqb_eq in Hc. subst c.
    rewrite join_nl_cons by apply split_nl_not_nil.
    rewrite IH. reflexivity.
  - rewrite split_nl_cons by assumption.
    destruct (split_nl r) as [|h t] eqn:E.
    + exfalso. exact (split_nl_not_nil r E).
    + simpl hd. simpl tl. destruct t as [|h' t'].
      * change (String c h = String c r). f_equal. exact IH.
      * change (join_nl (String c h :: h' :: t'))
          with (String c (h ++ NL ++ join_nl (h' :: t'))).
        change (join_nl (h :: h' :: t'))
          with (h ++ NL ++ join_nl (h' :: t')) in IH.
        congruence.
Qed.

(** No piece contains a line feed. *)
Lemma split_nl_pieces (s : string) :
  Forall (fun piece => mem nl piece = false) (split_nl s).
Proof.
  induction s as [|c r IH]; [repeat constructor|].
  destruct (Ascii.eqb c nl) eqn:Hc.
  - simpl. rewrite Hc. constructor; [reflexivity|assumption].
  - rewrite split_nl_cons by assumption.
    destruct (split_nl r) as [|h t] eqn:E.
    + exfalso. exact (split_nl_not_nil r E).
    + inversion IH; subst. constructor; [|assumption].
      rewrite mem_nl_cons, Hc. assumption.
Qed.

Lemma split_nl_one (s : string) : mem nl s = false -> split_nl s = [s].
Proof.
  induction s as [|c r IH]; [reflexivity|].
  rewrite mem_nl_cons.
  destruct (Ascii.eqb c nl) eqn:Hc; [discriminate|].
  intros H. rewrite split_nl_cons by assumption.
  rewrite (IH H). reflexivity.
Qed.

(** A text with a line feed has a second piece. *)
Lemma split_nl_more (s : string) :
  mem nl s = true -> tl (split_nl s) <> [].
Proof.
  induction s as [|c r IH]; [discriminate|].
  destruct (Ascii.eqb c nl) eqn:Hc.
  - intros _. simpl. rewrite Hc. simpl. apply split_nl_not_nil.
  - rewrite split_nl_cons, mem_nl_cons, Hc by assumption. exact IH.
Qed.

(** The pieces of a first line followed by a line feed and a rest. *)
Lemma split_nl_app (h r : string) :
  mem nl h = false -> split_nl (h ++ NL ++ r) = h :: split_nl r.
Proof.
  induction h as [|c h IH]; intros H.
  - reflexivity.
  - rewrite mem_nl_cons in H.
    destruct (Ascii.eqb c nl) eqn:Hc; [discriminate|].
    change ((String c h ++ NL ++ r)) with (String c (h ++ NL ++ r)).
    rewrite split_nl_cons by assumption.
    rewrite (IH H). reflexivity.
Qed.

(** Splitting the join of line-feed-free pieces gives the pieces back. *)
Lemma split_join (ls : list string) :
  ls <> [] -> Forall (fun piece => mem nl piece = false) ls ->
  split_nl (join_nl ls) = ls.
Proof.
  induction ls as [|h t IH]; [congruence|].
  intros _ Hall. inversion Hall as [|? ? Hh Ht]; subst.
  destruct t as [|h' t'].
  - simpl. apply split_nl_one. assumption.
  - rewrite join_nl_cons by discriminate.
    rewrite split_nl_app by assumption.
    rewrite IH; [reflexivity|discriminate|assumption].
Qed.

(** The first piece and the join of the others, for a text with a line
    feed: together they are the text. *)
Lemma first_line_rest (s : string) :
  mem nl s = true ->
  hd "" (split_nl s) ++ NL ++ join_nl (tl (split_nl s)) = s.
Proof.
  intros H. pose proof (split_nl_more s H) as Ht.
  pose proof (join_split s) as J.
  destruct (split_nl s) as [|h t]; [simpl in Ht; congruence|].
  simpl in *. rewrite join_nl_cons in J by assumption. exact J.
Qed.

(** Without a line feed the same concatenation is one character longer
    than the text. *)
Lemma first_line_rest_longer (s : string) :
  mem nl s = false ->
  hd "" (split_nl s) ++ NL ++ join_nl (tl (split_nl s)) = s ++ NL.
Proof.
  intros H. rewrite (split_nl_one s H). reflexivity.
Qed.

End PyStrFacts.

(** ** How each operation steps *)

Ltac unfold_ops :=
  unfold answer_to, remote_after, call, same_parameters, first_line, other_lines,
    run, terminate, get_pid, get_output, get_exit_code, pid_line, output_text,
    py_int, str_add, first, reraise, bind, try_except, when, self, print,
    client_run, set_result, set_kill, self_result, self_kill, ret, raise in *.

Section Steps.

Context {Remote : Type}.
Variable session_run : Connection -> string -> bool -> Remote -> reply * Remote.
Variable limit : nat.

Implicit Types (g : Globals) (st : State Remote) (r k : Result) (f : fault).

Let wrapper st : string := command (this st) ++ " & echo $!".

Lemma bind_unfold {A B} (m : M Remote A) (k : A -> M Remote B) st :
  bind Remote m k st =
    match m st with
    | (Return a, st') => k a st'
    | (Raise e, st') => (Raise e, st')
    end.
Proof. reflexivity. Qed.

(** *** [run] *)

Lemma run_sent g st :
  sent (snd (run session_run g st)) = (sent st ++ [call (wrapper st) st])%list.
Proof.
  subst wrapper. unfold_ops.
  destruct (print_statistic g); simpl;
    destruct (session_run _ _ _ _) as [[r|f] rm]; simpl;
    try destruct (ok r); simpl; try reflexivity;
    destruct (fclass f); reflexivity.
Qed.

Lemma run_remote g st :
  remote (snd (run session_run g st)) = remote_after session_run (wrapper st) st.
Proof.
  subst wrapper. unfold_ops.
  destruct (print_statistic g); simpl;
    destruct (session_run _ _ _ _) as [[r|f] rm]; simpl;
    try destruct (ok r); simpl; try reflexivity;
    destruct (fclass f); reflexivity.
Qed.

Lemma run_returned g st r :
  answer_to session_run (wrapper st) st = Returned r ->
  fst (run session_run g st) =
    (if ok r then Return tt
     else Raise (RemoteCommandException (stderr r) None false))
  /\ result (this (snd (run session_run g st))) = Some r.
Proof.
  subst wrapper. unfold_ops.
  destruct (print_statistic g); simpl;
    destruct (session_run _ _ _ _) as [answer rm]; simpl;
    intros ->; simpl; destruct (ok r); simpl; auto.
Qed.

Lemma run_faulted g st f :
  answer_to session_run (wrapper st) st = Faulted f ->
  fst (run session_run g st) =
    match fclass f with
    | SSHException =>
        Raise (RemoteCommandException (fstr f) (Some f) (negb (debug g)))
    | _ => Raise (Fault f)
    end
  /\ result (this (snd (run session_run g st))) = result (this st).
Proof.
  subst wrapper. unfold_ops.
  destruct (print_statistic g); simpl;
    destruct (session_run _ _ _ _) as [answer rm]; simpl;
    intros ->; simpl; destruct (fclass f); simpl; auto.
Qed.

Lemma run_frame g st :
  same_parameters (this st) (this (snd (run session_run g st)))
  /\ kill (this (snd (run session_run g st))) = kill (this st).
Proof.
  unfold_ops.
  destruct (print_statistic g); simpl;
    destruct (session_run _ _ _ _) as [[r|f] rm]; simpl;
    try destruct (ok r); simpl; try tauto;
    destruct (fclass f); simpl; tauto.
Qed.

(** *** The accessors *)

Lemma pid_line_stored st r :
  result (this st) = Some r ->
  pid_line st = (Return (first_line (stdout r)), st).
Proof.
  intros Hr. unfold_ops. rewrite Hr.
  pose proof (PyStrFacts.split_nl_not_nil (stdout r)) as Hne.
  destruct (PyStr.split_nl (stdout r)); [congruence|reflexivity].
Qed.

Lemma output_text_stored st r :
  result (this st) = Some r ->
  output_text st = (Return (other_lines (stdout r)), st).
Proof.
  intros Hr. unfold_ops. rewrite Hr. reflexivity.
Qed.

Lemma get_pid_stored g st r :
  result (this st) = Some r ->
  fst (get_pid limit g st) =
    match PyInt.int_of_str limit (first_line (stdout r)) with
    | Some pid => Return pid
    | None => Raise (ValueError (first_line (stdout r)))
    end
  /\ this (snd (get_pid limit g st)) = this st
  /\ remote (snd (get_pid limit g st)) = remote st
  /\ sent (snd (get_pid limit g st)) = sent st.
Proof.
  intros Hr. unfold get_pid, when, bind.
  destruct (print_statistic g).
  - rewrite (pid_line_stored st r Hr). cbn [print fst snd].
    rewrite (pid_line_stored _ r) by exact Hr.
    unfold py_int, ret, raise.
    destruct (PyInt.int_of_str limit (first_line (stdout r))); simpl; auto.
  - cbn [ret]. rewrite (pid_line_stored st r Hr).
    unfold py_int, ret, raise.
    destruct (PyInt.int_of_str limit (first_line (stdout r))); simpl; auto.
Qed.

Lemma get_pid_absent g st :
  result (this st) = None ->
  get_pid limit g st = (Raise (AttributeError "stdout"), st).
Proof.
  intros Hr. unfold_ops. destruct (print_statistic g); simpl; rewrite Hr; reflexivity.
Qed.

Lemma get_output_stored g st r :
  result (this st) = Some r ->
  fst (get_output g st) = Return (other_lines (stdout r))
  /\ this (snd (get_output g st)) = this st
  /\ remote (snd (get_output g st)) = remote st
  /\ sent (snd (get_output g st)) = sent st.
Proof.
  intros Hr. unfold_ops.
  destruct (print_statistic g); simpl; rewrite ?Hr; simpl; rewrite ?Hr; auto.
Qed.

Lemma get_output_absent g st :
  result (this st) = None ->
  get_output g st = (Raise (AttributeError "stdout"), st).
Proof.
  intros Hr. unfold_ops. destruct (print_statistic g); simpl; rewrite Hr; reflexivity.
Qed.

Lemma get_exit_code_stored g st r :
  result (this st) = Some r ->
  fst (get_exit_code g st) = Return (return_code r)
  /\ this (snd (get_exit_code g st)) = this st
  /\ remote (snd (get_exit_code g st)) = remote st
  /\ sent (snd (get_exit_code g st)) = sent st.
Proof.
  intros Hr. unfold_ops.
  destruct (print_statistic g); simpl; rewrite ?Hr; simpl; rewrite ?Hr; auto.
Qed.

Lemma get_exit_code_absent g st :
  result (this st) = None ->
  get_exit_code g st = (Raise (AttributeError "return_code"), st).
Proof.
  intros Hr. unfold_ops. destruct (print_statistic g); simpl; rewrite Hr; reflexivity.
Qed.

(** *** [terminate] *)

Lemma terminate_absent g st :
  result (this st) = None ->
  terminate session_run limit g st = (Raise (AttributeError "stdout"), st).
Proof.
  intros Hr. unfold terminate. rewrite bind_unfold.
  rewrite (get_pid_absent g st Hr). reflexivity.
Qed.

Lemma terminate_unparsable g st r :
  result (this st) = Some r ->
  PyInt.int_of_str limit (first_line (stdout r)) = None ->
  fst (terminate session_run limit g st) = Raise (ValueError (first_line (stdout r)))
  /\ this (snd (terminate session_run limit g st)) = this st
  /\ remote (snd (terminate session_run limit g st)) = remote st
  /\ sent (snd (terminate session_run limit g st)) = sent st.
Proof.
  intros Hr Hint. unfold terminate. rewrite bind_unfold.
  destruct (get_pid_stored g st r Hr) as (Hfst & Hthis & Hrem & Hsent).
  rewrite Hint in Hfst.
  destruct (get_pid limit g st) as [o st1]. simpl in *. subst o. simpl. auto.
Qed.

(** The kill command for the PID [pid]. *)
Let kill_text (pid : Z) : string := "kill " ++ PyStr.str_of_int pid.

Lemma terminate_returned g st r pid k :
  result (this st) = Some r ->
  PyInt.int_of_str limit (first_line (stdout r)) = Some pid ->
  answer_to session_run (kill_text pid) st = Returned k ->
  fst (terminate session_run limit g st) =
    (if ok k
     then if print_statistic g then Raise TypeError else Return tt
     else Raise (RemoteCommandException (stderr r) None false))
  /\ kill (this (snd (terminate session_run limit g st))) = Some k
  /\ result (this (snd (terminate session_run limit g st))) = Some r
  /\ same_parameters (this st) (this (snd (terminate session_run limit g st)))
  /\ sent (snd (terminate session_run limit g st))
     = (sent st ++ [call (kill_text pid) st])%list.
Proof.
  intros Hr Hint Hk. subst kill_text. unfold terminate. rewrite bind_unfold.
  destruct (get_pid_stored g st r Hr) as (Hfst & Hthis & Hrem & Hsent).
  rewrite Hint in Hfst.
  destruct (get_pid limit g st) as [o st1]. simpl in Hfst, Hthis, Hrem, Hsent.
  subst o. unfold_ops. rewrite Hthis, Hrem, Hsent.
  destruct (session_run _ _ _ _) as [answer rm]. simpl in Hk. subst answer.
  simpl. destruct (ok k); simpl.
  - destruct (print_statistic g); simpl; rewrite ?Hr; tauto.
  - rewrite Hr. simpl. tauto.
Qed.

Lemma terminate_faulted g st r pid f :
  result (this st) = Some r ->
  PyInt.int_of_str limit (first_line (stdout r)) = Some pid ->
  answer_to session_run (kill_text pid) st = Faulted f ->
  fst (terminate session_run limit g st) =
    match fclass f with
    | OtherFault _ => Raise (Fault f)
    | _ => Raise (RemoteCommandException (fstr f) (Some f) (negb (debug g)))
    end
  /\ this (snd (terminate session_run limit g st)) = this st
  /\ sent (snd (terminate session_run limit g st))
     = (sent st ++ [call (kill_text pid) st])%list.
Proof.
  intros Hr Hint Hk. subst kill_text. unfold terminate. rewrite bind_unfold.
  destruct (get_pid_stored g st r Hr) as (Hfst & Hthis & Hrem & Hsent).
  rewrite Hint in Hfst.
  destruct (get_pid limit g st) as [o st1]. simpl in Hfst, Hthis, Hrem, Hsent.
  subst o. unfold_ops. rewrite Hthis, Hrem, Hsent.
  destruct (session_run _ _ _ _) as [answer rm]. simpl in Hk. subst answer.
  simpl. destruct (fclass f); simpl; auto.
Qed.

Lemma terminate_frame g st :
  same_parameters (this st) (this (snd (terminate session_run limit g st)))
  /\ result (this (snd (terminate session_run limit g st))) = result (this st).
Proof.
  assert (Hrefl : same_parameters (this st) (this st))
    by (unfold same_parameters; tauto).
  destruct (result (this st)) as [r|] eqn:Hr.
  - destruct (PyInt.int_of_str limit (first_line (stdout r))) as [pid|] eqn:Hint.
    + destruct (answer_to session_run (kill_text pid) st) as [k|f] eqn:Hk.
      * destruct (terminate_returned g st r pid k Hr Hint Hk)
          as (_ & _ & Hres & Hsame & _). auto.
      * destruct (terminate_faulted g st r pid f Hr Hint Hk) as (_ & Hthis & _).
        rewrite Hthis. auto.
    + destruct (terminate_unparsable g st r Hr Hint) as (_ & Hthis & _).
      rewrite Hthis. auto.
  - rewrite (terminate_absent g st Hr). simpl. auto.
Qed.

End Steps.

(** ** Facts about [int] and [str] *)

Module PyIntFacts.
Import PyStr PyInt.

(** The scanner reads back the digits that [str] wrote. *)
Lemma scan_string_of_uint (u : uint) :
  forall prev, u <> Nil \/ prev = Digit ->
  scan (NilEmpty.string_of_uint u) prev = Some (u, "").
Proof.
  induction u; intros prev H; simpl;
    try (rewrite IHu by (right; reflexivity); reflexivity).
  destruct H as [H| ->]; [congruence|reflexivity].
Qed.

Lemma nb_digits_length (u : uint) :
  nb_digits u = String.length (NilEmpty.string_of_uint u).
Proof. induction u; simpl; congruence. Qed.

Lemma too_long_short (limit n : nat) :
  (n <= max_str_digits_threshold)%nat -> too_long limit n = false.
Proof.
  intros H. unfold too_long.
  destruct (Nat.ltb_spec max_str_digits_threshold n); [lia|reflexivity].
Qed.

(** [int] of the digits of a numeral, with or without a minus sign. *)
Lemma int_of_digits (limit : nat) (u : uint) (neg : bool) :
  u <> Nil ->
  (nb_digits u <= max_str_digits_threshold)%nat ->
  int_of_str limit
    ((if neg then "-" else "") ++ NilEmpty.string_of_uint u)
  = Some (Z.of_int (if neg then Neg u else Pos u)).
Proof.
  intros Hu Hlen.
  assert (Hscan : scan (NilEmpty.string_of_uint u) Start = Some (u, ""))
    by (apply scan_string_of_uint; left; exact Hu).
  assert (Hshape :
    int_of_str limit ((if neg then "-" else "") ++ NilEmpty.string_of_uint u)
    = match scan (NilEmpty.string_of_uint u) Start with
      | Some (v, rest) =>
          if all_space rest && negb (too_long limit (nb_digits v))
          then Some (Z.of_int (if neg then Neg v else Pos v))
          else None
      | None => None
      end).
  { destruct neg; [reflexivity|].
    destruct u; reflexivity. }
  rewrite Hshape, Hscan. simpl. rewrite too_long_short by exact Hlen.
  reflexivity.
Qed.

(** [int(str(n))] is [n] for every integer whose text is not long
    enough to meet the digit limit. *)
Lemma int_of_str_str_of_int (limit : nat) (n : Z) :
  (String.length (str_of_int n) <= max_str_digits_threshold)%nat ->
  int_of_str limit (str_of_int n) = Some n.
Proof.
  unfold str_of_int. rewrite <- (DecimalZ.of_to n) at 3.
  destruct n as [|p|p]; intros Hlen.
  - reflexivity.
  - pose proof (DecimalPos.Unsigned.to_uint_nonnil p) as Hp.
    change (Z.to_int (Z.pos p)) with (Pos (Pos.to_uint p)) in *.
    unfold NilZero.string_of_int, NilZero.string_of_uint in *.
    destruct (Pos.to_uint p) as [|u|u|u|u|u|u|u|u|u|u] eqn:E; [congruence|..];
      rewrite <- E in *;
      apply (int_of_digits limit (Pos.to_uint p) false Hp);
      rewrite nb_digits_length; rewrite E in *; exact Hlen.
  - pose proof (DecimalPos.Unsigned.to_uint_nonnil p) as Hp.
    change (Z.to_int (Z.neg p)) with (Neg (Pos.to_uint p)) in *.
    unfold NilZero.string_of_int, NilZero.string_of_uint in *.
    assert (Hdigits : (nb_digits (Pos.to_uint p) <= max_str_digits_threshold)%nat).
    { rewrite nb_digits_length.
      destruct (Pos.to_uint p); [congruence|..]; simpl in Hlen |- *; lia. }
    destruct (Pos.to_uint p) as [|u|u|u|u|u|u|u|u|u|u] eqn:E; [congruence|..];
      rewrite <- E in *;
      apply (int_of_digits limit (Pos.to_uint p) true Hp Hdigits).
Qed.

Lemma mem_nl_string_of_uint (u : uint) :
  mem nl (NilEmpty.string_of_uint u) = false.
Proof. induction u; simpl; auto. Qed.

(** The text of an integer has no line feed. *)
Lemma mem_nl_str_of_int (n : Z) : mem nl (str_of_int n) = false.
Proof.
  unfold str_of_int.
  destruct (Z.to_int n) as [u|u]; simpl;
    unfold NilZero.string_of_uint;
    destruct u; try reflexivity; apply (mem_nl_string_of_uint (_ u)).
Qed.

(** *** The scanner against the grammar *)

Lemma space_is_no_digit (c : ascii) :
  is_space c = true -> digit_of c = None /\ Ascii.eqb c "_" = false.
Proof.
  destruct c as [[] [] [] [] [] [] [] []]; try discriminate; split; reflexivity.
Qed.

Lemma digit_is_no_space (c : ascii) (d : uint -> uint) :
  digit_of c = Some d ->
  is_space c = false /\ Ascii.eqb c "_" = false
  /\ forall r, sign (String c r) = (false, String c r).
Proof.
  destruct c as [[] [] [] [] [] [] [] []]; try discriminate;
    intros _; repeat split.
Qed.

Lemma all_space_stops (s : string) : all_space s = true -> stops s.
Proof.
  destruct s as [|c r]; simpl; [trivial|].
  intros H. apply andb_prop in H. apply space_is_no_digit. tauto.
Qed.

Lemma scan_stops (s : string) : stops s -> scan s Digit = Some (Nil, s).
Proof.
  destruct s as [|c r]; simpl; [reflexivity|].
  intros [-> ->]. reflexivity.
Qed.

(** The scanner accepts every run of the grammar, whatever came before. *)
Lemma scan_complete (body : string) (u : uint) :
  digits_run body u ->
  forall trail prev, stops trail -> scan (body ++ trail) prev = Some (u, trail).
Proof.
  induction 1 as [c d Hd|c d s u Hd _ IH|c d s u Hd _ IH]; intros trail prev Hstop.
  - simpl. rewrite Hd, (scan_stops trail Hstop). reflexivity.
  - simpl. rewrite Hd, (IH trail Digit Hstop). reflexivity.
  - change (String c (String "_" s) ++ trail)
      with (String c (String "_" (s ++ trail))).
    cbn [scan]. rewrite Hd.
    change (digit_of "_") with (@None (uint -> uint)).
    change (Ascii.eqb "_" "_") with true. cbv iota.
    rewrite (IH trail Underscore Hstop). reflexivity.
Qed.

(** What the scanner accepts is a run of the grammar, or, right after a
    digit, nothing at all or an underscore and a run. *)
Lemma scan_sound (s : string) :
  forall prev u rest,
    scan s prev = Some (u, rest) ->
    (exists body, s = body ++ rest /\ digits_run body u)
    \/ (prev = Digit /\ u = Nil /\ rest = s)
    \/ (prev = Digit /\ exists body,
          s = String "_" (body ++ rest) /\ digits_run body u).
Proof.
  induction s as [|c r IH]; intros prev u rest; simpl.
  - destruct prev; try discriminate. intros [= <- <-]. auto.
  - destruct (digit_of c) as [d|] eqn:Hd.
    + destruct (scan r Digit) as [[u' rest']|] eqn:Hscan; [|discriminate].
      intros [= <- <-]. left.
      destruct (IH Digit u' rest' Hscan)
        as [(body & -> & Hrun)|[(_ & -> & ->)|(_ & body & -> & Hrun)]].
      * exists (String c body). split; [reflexivity|].
        apply run_digit; assumption.
      * exists (String c ""). split; [reflexivity|].
        apply run_last; assumption.
      * exists (String c (String "_" body)). split; [reflexivity|].
        apply run_underscore; assumption.
    + destruct (Ascii.eqb c "_") eqn:Hc.
      * apply Ascii.eqb_eq in Hc. subst c.
        destruct prev; try discriminate. intros Hscan.
        destruct (IH Underscore u rest Hscan)
          as [(body & -> & Hrun)|[([=] & _)|([=] & _)]].
        right. right. split; [reflexivity|]. exists body. auto.
      * destruct prev; try discriminate. intros [= <- <-]. auto.
Qed.

Lemma lstrip_app (lead rest : string) :
  all_space lead = true -> starts_unspaced rest -> lstrip (lead ++ rest) = rest.
Proof.
  induction lead as [|c lead IH]; simpl.
  - intros _. destruct rest as [|c r]; simpl; [reflexivity|]. intros ->. reflexivity.
  - intros H Hrest. apply andb_prop in H. destruct H as [-> H]. auto.
Qed.

Lemma lstrip_split (s : string) :
  exists lead, s = lead ++ lstrip s /\ all_space lead = true.
Proof.
  induction s as [|c r (lead & Hr & Hlead)]; simpl.
  - exists "". auto.
  - destruct (is_space c) eqn:Hc.
    + exists (String c lead). simpl. rewrite Hc, Hlead, <- Hr. auto.
    + exists "". auto.
Qed.

Lemma sign_split (s : string) :
  exists sg, s = sg ++ snd (sign s) /\ sign_text sg (fst (sign s)).
Proof.
  destruct s as [|c r].
  - exists "". split; [reflexivity|constructor].
  - destruct c as [[] [] [] [] [] [] [] []];
      first [ exists ""; split; [reflexivity|constructor]
            | exists "+"; split; [reflexivity|constructor]
            | exists "-"; split; [reflexivity|constructor] ].
Qed.

Lemma digits_run_head (body : string) (u : uint) :
  digits_run body u ->
  exists c d r, body = String c r /\ digit_of c = Some d.
Proof.
  destruct 1; eauto.
Qed.

(** [int] accepts exactly the literals of the grammar, with their value. *)
Theorem int_of_str_literal (limit : nat) (s : string) (n : Z) :
  int_of_str limit s = Some n <-> int_literal limit s n.
Proof.
  split.
  - unfold int_of_str. intros H.
    destruct (lstrip_split s) as (lead & Hs & Hlead).
    destruct (sign_split (lstrip s)) as (sg & Hsg & Hsign).
    destruct (sign (lstrip s)) as [neg body]. simpl in Hsg, Hsign.
    destruct (scan body Start) as [[u rest]|] eqn:Hscan; [|discriminate].
    destruct (all_space rest) eqn:Hrest; [|discriminate].
    destruct (too_long limit (nb_digits u)) eqn:Hlong; [discriminate|].
    simpl in H. injection H as <-.
    destruct (scan_sound body Start u rest Hscan)
      as [(run & -> & Hrun)|[([=] & _)|([=] & _)]].
    exists lead, sg, run, rest, neg, u.
    repeat split; try assumption. rewrite Hs at 1. rewrite Hsg at 1. reflexivity.
  - intros (lead & sg & body & trail & neg & u
            & -> & Hlead & Hsign & Hrun & Htrail & Hlong & ->).
    destruct (digits_run_head body u Hrun) as (c & d & r & -> & Hd).
    destruct (digit_is_no_space c d Hd) as (Hspace & _ & Hnosign).
    unfold int_of_str.
    assert (Hstrip : lstrip (lead ++ sg ++ String c r ++ trail)
                     = sg ++ String c r ++ trail).
    { apply lstrip_app; [assumption|]. destruct Hsign; simpl; auto. }
    rewrite Hstrip.
    assert (Hsg : sign (sg ++ String c r ++ trail) = (neg, String c r ++ trail)).
    { destruct Hsign; [apply Hnosign|reflexivity|reflexivity]. }
    rewrite Hsg.
    rewrite (scan_complete (String c r) u Hrun trail Start (all_space_stops trail Htrail)).
    rewrite Htrail, Hlong. reflexivity.
Qed.

(** [int] raises on a text exactly when the text is no literal. *)
Corollary int_of_str_refuses (limit : nat) (s : string) :
  int_of_str limit s = None <-> forall n, ~ int_literal limit s n.
Proof.
  split.
  - intros H n Hlit. apply int_of_str_literal in Hlit. congruence.
  - intros H. destruct (int_of_str limit s) as [n|] eqn:E; [|reflexivity].
    exfalso. apply (H n). apply int_of_str_literal. exact E.
Qed.

End PyIntFacts.

(** ** Small checks of the text primitives against the interpreter *)

Module TextExamples.
Import PyStr PyInt.

Example split_two_lines :
  split_nl ("a" ++ NL ++ "b" ++ NL) = ["a"; "b"; ""].
Proof. reflexivity. Qed.

Example split_empty : split_nl "" = [""].
Proof. reflexivity. Qed.

Example join_two : join_nl ["b"; ""] = "b" ++ NL.
Proof. reflexivity. Qed.

Example int_signed : int_of_str 4300 " -1_2_3 " = Some (-123)%Z.
Proof. reflexivity. Qed.

Example int_leading_zeros : int_of_str 4300 "007" = Some 7%Z.
Proof. reflexivity. Qed.

Example int_rejects :
  map (int_of_str 4300) [""; "+"; "- 5"; "1__0"; "_1"; "1_"; "1 2"; "0x1"]
  = [None; None; None; None; None; None; None; None].
Proof. reflexivity. Qed.

Example str_negative : str_of_int (-5) = "-5".
Proof. reflexivity. Qed.

Example str_zero : str_of_int 0 = "0".
Proof. reflexivity. Qed.

End TextExamples.

(** ** The claims about the life cycle *)

Section Claims.

Context {Remote : Type}.
Variable session_run : Connection -> string -> bool -> Remote -> reply * Remote.
Variable limit : nat.

Implicit Types (g : Globals) (st : State Remote) (r k : Result) (f : fault).

(** C1, amended.  [run] submits to the session exactly one call: the
    stored command followed by [ & echo $!], with hidden output.  When
    the session answers that call with a successful result whose output
    is the text of the PID, a line feed and the command's own output,
    [run] succeeds, the first line of the captured output is the PID,
    [get_pid] returns it and [get_output] returns the command's own
    output.  That the answer has this form is the session's doing: [run]
    does not check it. *)
Theorem run_submits_wrapper g st :
  sent (snd (run session_run g st))
  = (sent st ++ [{| inv_client := client (this st);
                    inv_command := command (this st) ++ " & echo $!";
                    inv_hide := true |}])%list
  /\ forall r pid out,
       answer_to session_run (command (this st) ++ " & echo $!") st = Returned r ->
       ok r = true ->
       stdout r = PyStr.str_of_int pid ++ PyStr.NL ++ out ->
       (String.length (PyStr.str_of_int pid) <= PyInt.max_str_digits_threshold)%nat ->
       fst (run session_run g st) = Return tt
       /\ first_line (stdout r) = PyStr.str_of_int pid
       /\ forall g',
            fst (get_pid limit g' (snd (run session_run g st))) = Return pid
            /\ fst (get_output g' (snd (run session_run g st))) = Return out.
Proof.
  split; [apply run_sent|].
  intros r pid out Hans Hok Hout Hlen.
  destruct (run_returned session_run g st r Hans) as [Hfst Hres].
  rewrite Hok in Hfst.
  assert (Hline : first_line (stdout r) = PyStr.str_of_int pid).
  { unfold first_line. rewrite Hout.
    rewrite PyStrFacts.split_nl_app by apply PyIntFacts.mem_nl_str_of_int.
    reflexivity. }
  repeat split; try assumption.
  - destruct (get_pid_stored limit g' _ r Hres) as [Hpid _].
    rewrite Hpid, Hline.
    rewrite PyIntFacts.int_of_str_str_of_int by exact Hlen. reflexivity.
  - destruct (get_output_stored g' _ r Hres) as [Hget _].
    rewrite Hget. unfold other_lines. rewrite Hout.
    rewrite PyStrFacts.split_nl_app by apply PyIntFacts.mem_nl_str_of_int.
    simpl tl. rewrite PyStrFacts.join_split. reflexivity.
Qed.

(** C2, amended.  With a stored result, [get_output] returns the lines
    of the captured output after the first, joined by line feeds.  When
    the captured output contains a line feed, those are exactly its
    lines from the second on, the first line has no line feed, and the
    first line, a line feed and [get_output] give the captured output
    back.  When it contains none, [get_output] is empty, the first line is
    the whole output and the same concatenation is the output with one
    line feed more. *)
Theorem get_output_drops_first_line g st r :
  result (this st) = Some r ->
  fst (get_output g st) = Return (PyStr.join_nl (tl (PyStr.split_nl (stdout r))))
  /\ PyStr.mem PyStr.nl (first_line (stdout r)) = false
  /\ (PyStr.mem PyStr.nl (stdout r) = true ->
      PyStr.split_nl (other_lines (stdout r)) = tl (PyStr.split_nl (stdout r))
      /\ first_line (stdout r) ++ PyStr.NL ++ other_lines (stdout r) = stdout r)
  /\ (PyStr.mem PyStr.nl (stdout r) = false ->
      other_lines (stdout r) = "" /\ first_line (stdout r) = stdout r
      /\ first_line (stdout r) ++ PyStr.NL ++ other_lines (stdout r)
         = stdout r ++ PyStr.NL).
Proof.
  intros Hr.
  destruct (get_output_stored g st r Hr) as [Hget _].
  pose proof (PyStrFacts.split_nl_pieces (stdout r)) as Hall.
  pose proof (PyStrFacts.split_nl_not_nil (stdout r)) as Hne.
  repeat split.
  - exact Hget.
  - unfold first_line. destruct (PyStr.split_nl (stdout r)); [congruence|].
    inversion Hall; assumption.
  - unfold other_lines. apply PyStrFacts.split_join.
    + apply PyStrFacts.split_nl_more. assumption.
    + destruct (PyStr.split_nl (stdout r)); [congruence|].
      inversion Hall; assumption.
  - apply PyStrFacts.first_line_rest. assumption.
  - unfold other_lines. rewrite PyStrFacts.split_nl_one by assumption. reflexivity.
  - unfold first_line. rewrite PyStrFacts.split_nl_one by assumption. reflexivity.
  - apply PyStrFacts.first_line_rest_longer. assumption.
Qed.

(** What [run] does translate.  It returns (nothing) exactly when the
    session returned a result flagged as success.  It raises
    [RemoteCommandException] exactly when the session raised Paramiko's
    [SSHException], with that exception's text as message and the
    exception itself as context, or when the session returned a result
    not flagged as success, with the captured standard-error text as
    message.  Every other exception of the session is left as it is. *)
Lemma run_raises_iff g st :
  let answer := answer_to session_run (command (this st) ++ " & echo $!") st in
  (fst (run session_run g st) = Return tt
   <-> exists r, answer = Returned r /\ ok r = true)
  /\ forall msg ctx hidden,
       fst (run session_run g st) = Raise (RemoteCommandException msg ctx hidden)
       <-> (exists f, answer = Faulted f /\ fclass f = SSHException
                      /\ msg = fstr f /\ ctx = Some f /\ hidden = negb (debug g))
           \/ (exists r, answer = Returned r /\ ok r = false
                         /\ msg = stderr r /\ ctx = None /\ hidden = false).
Proof.
  intros answer. subst answer.
  destruct (answer_to session_run (command (this st) ++ " & echo $!") st)
    as [r|f] eqn:Hans.
  - destruct (run_returned session_run g st r Hans) as [Hfst _].
    rewrite Hfst. split; [|intros msg ctx hidden]; split.
    + destruct (ok r) eqn:Hok; [eauto|discriminate].
    + intros (r' & [= <-] & ->). reflexivity.
    + destruct (ok r) eqn:Hok; [discriminate|].
      intros [= <- <- <-]. right. exists r. auto.
    + intros [(f & [=] & _)|(r' & [= <-] & -> & -> & -> & ->)]. reflexivity.
  - destruct (run_faulted session_run g st f Hans) as [Hfst _].
    rewrite Hfst. split; [|intros msg ctx hidden]; split.
    + destruct (fclass f); discriminate.
    + intros (r' & [=] & _).
    + destruct (fclass f) eqn:Hc; try discriminate.
      intros [= <- <- <-]. left. exists f. auto.
    + intros [(f' & [= <-] & -> & -> & -> & ->)|(r' & [=] & _)]. reflexivity.
Qed.

(** C4, amended.  While no result is stored, each of [get_pid],
    [get_output] and [get_exit_code] fails with the attribute error of
    the absent result, returns no value and changes nothing; and a run
    that ends on an exception raised by the session stores no result. *)
Theorem accessors_fail_without_result g st :
  result (this st) = None ->
  get_pid limit g st = (Raise (AttributeError "stdout"), st)
  /\ get_output g st = (Raise (AttributeError "stdout"), st)
  /\ get_exit_code g st = (Raise (AttributeError "return_code"), st)
  /\ forall g' f,
       answer_to session_run (command (this st) ++ " & echo $!") st = Faulted f ->
       result (this (snd (run session_run g' st))) = None.
Proof.
  intros Hr. repeat split.
  - apply get_pid_absent. exact Hr.
  - apply get_output_absent. exact Hr.
  - apply get_exit_code_absent. exact Hr.
  - intros g' f Hans.
    destruct (run_faulted session_run g' st f Hans) as [_ Hres].
    rewrite Hres. exact Hr.
Qed.

(** C6. When [terminate] submits the kill command and the session
    returns a result not flagged as success, the exception raised is a
    [RemoteCommandException] whose message is the standard-error text
    captured by the original run; the result of the kill is stored. *)
Theorem terminate_reports_run_stderr g st r pid k :
  result (this st) = Some r ->
  PyInt.int_of_str limit (first_line (stdout r)) = Some pid ->
  answer_to session_run ("kill " ++ PyStr.str_of_int pid) st = Returned k ->
  ok k = false ->
  fst (terminate session_run limit g st)
  = Raise (RemoteCommandException (stderr r) None false)
  /\ kill (this (snd (terminate session_run limit g st))) = Some k
  /\ sent (snd (terminate session_run limit g st))
     = (sent st ++ [{| inv_client := client (this st);
                       inv_command := "kill " ++ PyStr.str_of_int pid;
                       inv_hide := true |}])%list.
Proof.
  intros Hr Hint Hans Hok.
  destruct (terminate_returned session_run limit g st r pid k Hr Hint Hans)
    as (Hfst & Hkill & _ & _ & Hsent).
  rewrite Hok in Hfst. auto.
Qed.

(** C7. No operation changes [command], [ssh_host], [ssh_user],
    [ssh_password] or [client].  [run] changes at most [result], and
    sets it to what the session returned; [terminate] changes at most
    [kill], and sets it to what the session returned for the kill; the
    three accessors change no field.  The constructor stores
    its arguments and leaves [result] and [kill] empty. *)
Theorem only_result_and_kill_change g st :
  let after_run := this (snd (run session_run g st)) in
  let after_terminate := this (snd (terminate session_run limit g st)) in
  (same_parameters (this st) after_run
   /\ kill after_run = kill (this st)
   /\ match answer_to session_run (command (this st) ++ " & echo $!") st with
      | Returned r => result after_run = Some r
      | Faulted _ => result after_run = result (this st)
      end)
  /\ (same_parameters (this st) after_terminate
      /\ result after_terminate = result (this st)
      /\ forall r pid,
           result (this st) = Some r ->
           PyInt.int_of_str limit (first_line (stdout r)) = Some pid ->
           match answer_to session_run ("kill " ++ PyStr.str_of_int pid) st with
           | Returned k => kill after_terminate = Some k
           | Faulted _ => kill after_terminate = kill (this st)
           end)
  /\ this (snd (get_pid limit g st)) = this st
  /\ this (snd (get_output g st)) = this st
  /\ this (snd (get_exit_code g st)) = this st
  /\ forall c h u p (rm : Remote),
       let made := this (init g c h u p rm) in
       command made = c /\ ssh_host made = h /\ ssh_user made = u
       /\ ssh_password made = p /\ result made = None /\ kill made = None.
Proof.
  cbv zeta. split.
  { split; [apply run_frame|]. split; [apply run_frame|].
    destruct (answer_to session_run (command (this st) ++ " & echo $!") st)
      as [r|f] eqn:Hans.
    - apply (run_returned session_run g st r Hans).
    - apply (run_faulted session_run g st f Hans). }
  split.
  { split; [apply terminate_frame|]. split; [apply terminate_frame|].
    intros r pid Hr Hint.
    destruct (answer_to session_run ("kill " ++ PyStr.str_of_int pid) st)
      as [k|f] eqn:Hans.
    - apply (terminate_returned session_run limit g st r pid k Hr Hint Hans).
    - destruct (terminate_faulted session_run limit g st r pid f Hr Hint Hans)
        as (_ & -> & _).
      reflexivity. }
  split.
  { destruct (result (this st)) as [r|] eqn:Hr.
    - apply (get_pid_stored limit g st r Hr).
    - rewrite (get_pid_absent limit g st Hr). reflexivity. }
  split.
  { destruct (result (this st)) as [r|] eqn:Hr.
    - apply (get_output_stored g st r Hr).
    - rewrite (get_output_absent g st Hr). reflexivity. }
  split.
  { destruct (result (this st)) as [r|] eqn:Hr.
    - apply (get_exit_code_stored g st r Hr).
    - rewrite (get_exit_code_absent g st Hr). reflexivity. }
  intros c h u p rm. simpl. repeat split.
Qed.

(** C9. When the session returns a result not flagged as success, [run]
    stores that result before it raises [RemoteCommandException];
    afterwards [get_exit_code], [get_output] and [get_pid] work on the
    stored data of the failed run: none of them fails for want of a
    result. *)
Theorem failed_run_stores_result g st r :
  answer_to session_run (command (this st) ++ " & echo $!") st = Returned r ->
  ok r = false ->
  fst (run session_run g st) = Raise (RemoteCommandException (stderr r) None false)
  /\ result (this (snd (run session_run g st))) = Some r
  /\ forall g',
       fst (get_exit_code g' (snd (run session_run g st))) = Return (return_code r)
       /\ fst (get_output g' (snd (run session_run g st)))
          = Return (PyStr.join_nl (tl (PyStr.split_nl (stdout r))))
       /\ fst (get_pid limit g' (snd (run session_run g st)))
          = match PyInt.int_of_str limit (first_line (stdout r)) with
            | Some pid => Return pid
            | None => Raise (ValueError (first_line (stdout r)))
            end.
Proof.
  intros Hans Hok.
  destruct (run_returned session_run g st r Hans) as [Hfst Hres].
  rewrite Hok in Hfst. repeat split; try assumption.
  - apply (get_exit_code_stored g' _ r Hres).
  - apply (get_output_stored g' _ r Hres).
  - apply (get_pid_stored limit g' _ r Hres).
Qed.

(** C10. When the first line of the stored output is not a literal of any
    integer, [get_pid] raises [ValueError] and returns nothing, and
    [terminate] ends with the same [ValueError] without submitting
    anything to the session and without changing the object. *)
Theorem unparsable_pid_line_raises g st r :
  result (this st) = Some r ->
  (forall n, ~ PyInt.int_literal limit (first_line (stdout r)) n) ->
  fst (get_pid limit g st) = Raise (ValueError (first_line (stdout r)))
  /\ fst (terminate session_run limit g st)
     = Raise (ValueError (first_line (stdout r)))
  /\ sent (snd (terminate session_run limit g st)) = sent st
  /\ remote (snd (terminate session_run limit g st)) = remote st
  /\ this (snd (terminate session_run limit g st)) = this st.
Proof.
  intros Hr Hlit.
  apply PyIntFacts.int_of_str_refuses in Hlit.
  destruct (get_pid_stored limit g st r Hr) as [Hpid _].
  rewrite Hlit in Hpid.
  destruct (terminate_unparsable session_run limit g st r Hr Hlit)
    as (Hfst & Hthis & Hrem & Hsent).
  auto.
Qed.

(** *** What the globals can and cannot change *)

(** Whatever the globals, [run] raises or returns alike: the same class
    and message, the same calls, the same fields.  Only the context
    chain of the exception and the console can differ. *)
Lemma run_globals g g' st :
  erase_context (fst (run session_run g st))
  = erase_context (fst (run session_run g' st))
  /\ this (snd (run session_run g st)) = this (snd (run session_run g' st))
  /\ sent (snd (run session_run g st)) = sent (snd (run session_run g' st)).
Proof.
  rewrite !run_sent. split; [|split; [|reflexivity]].
  - destruct (answer_to session_run (command (this st) ++ " & echo $!") st)
      as [r|f] eqn:Hans.
    + destruct (run_returned session_run g st r Hans) as [-> _].
      destruct (run_returned session_run g' st r Hans) as [-> _].
      reflexivity.
    + destruct (run_faulted session_run g st f Hans) as [-> _].
      destruct (run_faulted session_run g' st f Hans) as [-> _].
      destruct (fclass f); reflexivity.
  - unfold_ops.
    destruct (print_statistic g), (print_statistic g'); simpl;
      destruct (session_run _ _ _ _) as [[r|f] rm]; simpl;
      try destruct (ok r); simpl; try reflexivity;
      destruct (fclass f); reflexivity.
Qed.

(** The accessors return or raise alike under all globals. *)
Lemma accessors_globals g g' st :
  fst (get_pid limit g st) = fst (get_pid limit g' st)
  /\ fst (get_output g st) = fst (get_output g' st)
  /\ fst (get_exit_code g st) = fst (get_exit_code g' st).
Proof.
  destruct (result (this st)) as [r|] eqn:Hr.
  - destruct (get_pid_stored limit g st r Hr) as [-> _].
    destruct (get_pid_stored limit g' st r Hr) as [-> _].
    destruct (get_output_stored g st r Hr) as [-> _].
    destruct (get_output_stored g' st r Hr) as [-> _].
    destruct (get_exit_code_stored g st r Hr) as [-> _].
    destruct (get_exit_code_stored g' st r Hr) as [-> _].
    auto.
  - rewrite !get_pid_absent, !get_output_absent, !get_exit_code_absent
      by exact Hr.
    auto.
Qed.

(** After a kill that the session reports as a success, [terminate]
    returns only when [print_statistic] is off: the narration adds the
    integer [return_code] to a text. *)
Lemma terminate_narrated_success g st r pid k :
  result (this st) = Some r ->
  PyInt.int_of_str limit (first_line (stdout r)) = Some pid ->
  answer_to session_run ("kill " ++ PyStr.str_of_int pid) st = Returned k ->
  ok k = true ->
  fst (terminate session_run limit g st)
  = if print_statistic g then Raise TypeError else Return tt.
Proof.
  intros Hr Hint Hans Hok.
  destruct (terminate_returned session_run limit g st r pid k Hr Hint Hans)
    as (Hfst & _).
  rewrite Hok in Hfst. exact Hfst.
Qed.

End Claims.

(** ** The claims on concrete sessions *)

Import Scripted.

(** [echo hello] on a host that answers the wrapper with PID 4242. *)
Lemma run_submits_wrapper_witness :
  answer_to session ("echo hello" ++ " & echo $!") (fresh silent "echo hello" [Returned hello])
  = Returned hello
  /\ fst (run session silent (fresh silent "echo hello" [Returned hello])) = Return tt
  /\ first_line (stdout hello) = "4242"
  /\ forall g',
       fst (get_pid limit g' (after_run silent "echo hello" [Returned hello]))
       = Return 4242%Z
       /\ fst (get_output g' (after_run silent "echo hello" [Returned hello]))
          = Return ("hello" ++ PyStr.NL).
Proof.
  split; [reflexivity|].
  apply (proj2 (run_submits_wrapper session limit silent
                  (fresh silent "echo hello" [Returned hello]))
           hello 4242%Z ("hello" ++ PyStr.NL)).
  - reflexivity.
  - reflexivity.
  - reflexivity.
  - apply Nat.leb_le. reflexivity.
Defined.

Lemma get_output_drops_first_line_witness :
  result (this (after_run silent "echo hello" [Returned hello])) = Some hello
  /\ fst (get_output silent (after_run silent "echo hello" [Returned hello]))
     = Return (PyStr.join_nl (tl (PyStr.split_nl (stdout hello))))
  /\ first_line (stdout hello) ++ PyStr.NL ++ other_lines (stdout hello)
     = stdout hello.
Proof.
  split; [reflexivity|].
  destruct (get_output_drops_first_line silent
              (after_run silent "echo hello" [Returned hello]) hello eq_refl)
    as (Hget & _ & Hsome & _).
  split; [exact Hget|].
  apply Hsome. reflexivity.
Defined.

(** C2 as stated fails: [true #] comments the suffix of the wrapper out,
    the run succeeds with an empty captured output, and the first line, a
    line feed and [get_output] give a line feed, not the empty output. *)
Lemma get_output_roundtrip_counterexample :
  fst (run session silent (fresh silent "true #" [Returned commented_out])) = Return tt
  /\ exists line out,
       fst (pid_line (after_run silent "true #" [Returned commented_out])) = Return line
       /\ fst (get_output silent (after_run silent "true #" [Returned commented_out]))
          = Return out
       /\ line ++ PyStr.NL ++ out <> stdout commented_out.
Proof.
  split; [reflexivity|].
  exists "", "". repeat split. discriminate.
Qed.

Lemma accessors_fail_without_result_witness :
  result (this (fresh silent "sleep 5" [])) = None
  /\ fst (get_pid limit silent (fresh silent "sleep 5" []))
     = Raise (AttributeError "stdout")
  /\ fst (get_output silent (fresh silent "sleep 5" []))
     = Raise (AttributeError "stdout")
  /\ fst (get_exit_code silent (fresh silent "sleep 5" []))
     = Raise (AttributeError "return_code").
Proof.
  split; [reflexivity|].
  destruct (accessors_fail_without_result session limit silent
              (fresh silent "sleep 5" []) eq_refl)
    as (Hpid & Hout & Hcode & _).
  exact (conj (f_equal fst Hpid) (conj (f_equal fst Hout) (f_equal fst Hcode))).
Defined.

(** C4 as stated fails: after a run that raised because the wrapper left
    with status 3, the accessors return values read from the failed
    result. *)
Lemma accessors_after_failed_run_counterexample :
  fst (run session silent (fresh silent "exit 3 #" [Returned exited_3]))
  = Raise (RemoteCommandException "" None false)
  /\ fst (get_exit_code silent (after_run silent "exit 3 #" [Returned exited_3]))
     = Return 3%Z
  /\ fst (get_output silent (after_run silent "exit 3 #" [Returned exited_3]))
     = Return "".
Proof.
  repeat split.
Qed.

Lemma only_result_and_kill_change_witness :
  result (this (after_run silent "sleep 5" [Returned spawned; Returned killed]))
  = Some spawned
  /\ kill (this (after_run silent "sleep 5" [Returned spawned; Returned killed]))
     = None
  /\ kill (this (snd (terminate session limit silent
                        (after_run silent "sleep 5" [Returned spawned; Returned killed]))))
     = Some killed
  /\ result (this (snd (terminate session limit silent
                          (after_run silent "sleep 5" [Returned spawned; Returned killed]))))
     = Some spawned.
Proof.
  destruct (only_result_and_kill_change session limit silent
              (after_run silent "sleep 5" [Returned spawned; Returned killed]))
    as (_ & (_ & Hres & Hkill) & _).
  split; [reflexivity|]. split; [reflexivity|].
  exact (conj (Hkill spawned 4242%Z eq_refl eq_refl) Hres).
Defined.

(** The run wrote a warning, the kill finds no such process: the error of
    [terminate] carries the warning of the run. *)
Lemma terminate_reports_run_stderr_witness :
  fst (terminate session limit silent
         (after_run silent "sleep 5" [Returned warned; Returned no_such_process]))
  = Raise (RemoteCommandException "warning: low disk space" None false)
  /\ stderr no_such_process <> "warning: low disk space".
Proof.
  split; [|discriminate].
  apply (terminate_reports_run_stderr session limit silent
           (after_run silent "sleep 5" [Returned warned; Returned no_such_process])
           warned 4242%Z no_such_process);
    reflexivity.
Defined.

Lemma failed_run_stores_result_witness :
  fst (run session silent (fresh silent "oops" [Returned failed_late]))
  = Raise (RemoteCommandException "sh: 1: oops: not found" None false)
  /\ result (this (after_run silent "oops" [Returned failed_late])) = Some failed_late
  /\ fst (get_exit_code silent (after_run silent "oops" [Returned failed_late]))
     = Return 127%Z
  /\ fst (get_output silent (after_run silent "oops" [Returned failed_late]))
     = Return "partial"
  /\ fst (get_pid limit silent (after_run silent "oops" [Returned failed_late]))
     = Return 4242%Z.
Proof.
  destruct (failed_run_stores_result session limit silent
              (fresh silent "oops" [Returned failed_late]) failed_late
              eq_refl eq_refl)
    as (Hrun & Hres & Hacc).
  destruct (Hacc silent) as (Hcode & Hout & Hpid).
  exact (conj Hrun (conj Hres (conj Hcode (conj Hout Hpid)))).
Defined.

Lemma unparsable_pid_line_raises_witness :
  (forall n, ~ PyInt.int_literal limit (first_line (stdout banner)) n)
  /\ fst (get_pid limit silent
            (after_run silent "sleep 5" [Returned banner; Returned killed]))
     = Raise (ValueError "Last login: Tue")
  /\ fst (terminate session limit silent
            (after_run silent "sleep 5" [Returned banner; Returned killed]))
     = Raise (ValueError "Last login: Tue")
  /\ sent (snd (terminate session limit silent
                  (after_run silent "sleep 5" [Returned banner; Returned killed])))
     = sent (after_run silent "sleep 5" [Returned banner; Returned killed]).
Proof.
  assert (Hlit : forall n, ~ PyInt.int_literal limit (first_line (stdout banner)) n)
    by (apply PyIntFacts.int_of_str_refuses; reflexivity).
  split; [exact Hlit|].
  destruct (unparsable_pid_line_raises session limit silent
              (after_run silent "sleep 5" [Returned banner; Returned killed])
              banner eq_refl Hlit)
    as (Hpid & Hterm & Hsent & _).
  exact (conj Hpid (conj Hterm Hsent)).
Defined.

(** C1 as stated fails.  The command [true #] comments the suffix of
    the wrapper out: the run succeeds and the captured output is empty,
    so its first line is no PID and [get_pid] raises.  The command
    [echo 1; sleep 5] prints a line of its own before the shell prints
    the PID: the run succeeds, the first line is the command's output
    and [get_pid] returns 1, while the PID sits in [get_output]. *)
Lemma run_first_line_counterexample :
  (fst (run session silent (fresh silent "true #" [Returned commented_out]))
   = Return tt
   /\ map inv_command (sent (after_run silent "true #" [Returned commented_out]))
      = ["true # & echo $!"]
   /\ (forall n, ~ PyInt.int_literal limit (first_line (stdout commented_out)) n)
   /\ fst (get_pid limit silent (after_run silent "true #" [Returned commented_out]))
      = Raise (ValueError ""))
  /\ (fst (run session silent
             (fresh silent "echo 1; sleep 5" [Returned own_line_first]))
      = Return tt
      /\ fst (get_pid limit silent
                (after_run silent "echo 1; sleep 5" [Returned own_line_first]))
         = Return 1%Z
      /\ fst (get_output silent
                (after_run silent "echo 1; sleep 5" [Returned own_line_first]))
         = Return ("4242" ++ PyStr.NL)).
Proof.
  split; [|repeat split].
  split; [reflexivity|]. split; [reflexivity|]. split; [|reflexivity].
  apply PyIntFacts.int_of_str_refuses. reflexivity.
Qed.

(** C3, where the code departs from it.  The wrapper leaves with a
    non-zero status and the session raises Invoke's [UnexpectedExit], as
    Fabric does unless told otherwise; or the host refuses the connection
    and the session raises a socket error.  Under all globals [run]
    passes both on as they are and raises no [RemoteCommandException],
    against its docstring; [terminate] does translate the same
    [UnexpectedExit] of a kill. *)
Theorem run_leaves_faults_untranslated :
  forall g : Globals,
    fst (run session g (fresh g "exit 3 #" [Faulted unexpected_exit]))
    = Raise (Fault unexpected_exit)
    /\ is_rce (fst (run session g (fresh g "exit 3 #" [Faulted unexpected_exit])))
       = false
    /\ fst (run session g (fresh g "sleep 5" [Faulted refused]))
       = Raise (Fault refused)
    /\ is_rce (fst (run session g (fresh g "sleep 5" [Faulted refused]))) = false
    /\ is_rce (fst (terminate session limit g
                      (after_run g "sleep 5"
                         [Returned spawned; Faulted unexpected_exit])))
       = true.
Proof.
  intros [[|] [|]]; repeat split.
Qed.

(** C5, where the code departs from it.  On a fresh object, and on an
    object whose run ended on an exception of the session, [terminate]
    ends with the attribute error that [get_pid] raises on the absent
    result and not with a [RemoteCommandException], against its
    docstring; nothing is submitted and the state is as it was. *)
Theorem terminate_before_run_raises_attribute_error :
  forall g : Globals,
    terminate session limit g (fresh g "sleep 5" [Returned killed])
    = (Raise (AttributeError "stdout"), fresh g "sleep 5" [Returned killed])
    /\ is_rce (fst (terminate session limit g
                      (fresh g "sleep 5" [Returned killed]))) = false
    /\ is_raise (fst (run session g (fresh g "sleep 5" [Faulted timeout]))) = true
    /\ terminate session limit g (after_run g "sleep 5" [Faulted timeout])
       = (Raise (AttributeError "stdout"),
          after_run g "sleep 5" [Faulted timeout]).
Proof.
  intros [[|] [|]]; repeat split.
Qed.

(** C8, where the code departs from it.  The same command on the same
    host, run and then terminated: with [print_statistic] off [terminate]
    returns, with [print_statistic] on it raises [TypeError] after the
    kill was done, for every setting of [debug]. *)
Theorem terminate_outcome_depends_on_print_statistic :
  forall d : bool,
    let quiet := {| debug := d; print_statistic := false |} in
    let loud := {| debug := d; print_statistic := true |} in
    fst (run session quiet (fresh quiet "sleep 5" [Returned spawned; Returned killed]))
    = Return tt
    /\ fst (run session loud (fresh loud "sleep 5" [Returned spawned; Returned killed]))
       = Return tt
    /\ fst (terminate session limit quiet
              (after_run quiet "sleep 5" [Returned spawned; Returned killed]))
       = Return tt
    /\ fst (terminate session limit loud
              (after_run loud "sleep 5" [Returned spawned; Returned killed]))
       = Raise TypeError
    /\ kill (this (snd (terminate session limit loud
                          (after_run loud "sleep 5" [Returned spawned; Returned killed]))))
       = Some killed.
Proof.
  intros [|]; repeat split.
Qed.

(** ** Further properties of the code *)

(** *** What each operation prints and submits *)

Section Narration.

Context {Remote : Type}.
Variable session_run : Connection -> string -> bool -> Remote -> reply * Remote.
Variable limit : nat.

Implicit Types (g : Globals) (st : State Remote) (r k : Result) (f : fault).

Lemma bind_return {A B} (m : M Remote A) (k : A -> M Remote B) st a :
  fst (m st) = Return a -> bind Remote m k st = k a (snd (m st)).
Proof.
  rewrite bind_unfold. destruct (m st) as [o st']. simpl. intros ->. reflexivity.
Qed.

Lemma bind_raise {A B} (m : M Remote A) (k : A -> M Remote B) st e :
  fst (m st) = Raise e -> bind Remote m k st = (Raise e, snd (m st)).
Proof.
  rewrite bind_unfold. destruct (m st) as [o st']. simpl. intros ->. reflexivity.
Qed.

Lemma run_console g st :
  console (snd (run session_run g st))
  = (console st ++ said g ("Run command: " ++ command (this st)))%list.
Proof.
  unfold said. unfold_ops.
  destruct (print_statistic g); simpl;
    destruct (session_run _ _ _ _) as [[r|f] rm]; simpl;
    try destruct (ok r); simpl; rewrite ?app_nil_r; try reflexivity;
    destruct (fclass f); reflexivity.
Qed.

Lemma get_pid_console g st r :
  result (this st) = Some r ->
  console (snd (get_pid limit g st))
  = (console st
     ++ said g ("PID of process: " ++ first_line (stdout r)))%list.
Proof.
  intros Hr. unfold said. unfold get_pid, when. rewrite bind_unfold.
  destruct (print_statistic g).
  - rewrite bind_unfold, (pid_line_stored st r Hr). cbn [print fst snd].
    rewrite bind_unfold, (pid_line_stored _ r) by exact Hr.
    unfold py_int, ret, raise.
    destruct (PyInt.int_of_str limit (first_line (stdout r))); reflexivity.
  - cbn [ret]. rewrite bind_unfold, (pid_line_stored st r Hr).
    unfold py_int, ret, raise. rewrite app_nil_r.
    destruct (PyInt.int_of_str limit (first_line (stdout r))); reflexivity.
Qed.

Lemma get_output_console g st r :
  result (this st) = Some r ->
  console (snd (get_output g st))
  = (console st
     ++ said g ("Execution output: " ++ other_lines (stdout r)))%list.
Proof.
  intros Hr. unfold said. unfold get_output, when. rewrite bind_unfold.
  destruct (print_statistic g).
  - rewrite bind_unfold, (output_text_stored st r Hr). cbn [print fst snd].
    rewrite (output_text_stored _ r) by exact Hr. reflexivity.
  - cbn [ret]. rewrite (output_text_stored st r Hr), app_nil_r. reflexivity.
Qed.

Lemma get_exit_code_console g st r :
  result (this st) = Some r ->
  console (snd (get_exit_code g st))
  = (console st
     ++ said g ("Result code: " ++ PyStr.str_of_int (return_code r)))%list.
Proof.
  intros Hr. unfold said. unfold_ops.
  destruct (print_statistic g); simpl; rewrite ?Hr; simpl; rewrite ?Hr;
    rewrite ?app_nil_r; reflexivity.
Qed.

(** [terminate] prints what its call of [get_pid] prints, and no more. *)
Lemma terminate_console g st :
  console (snd (terminate session_run limit g st))
  = console (snd (get_pid limit g st)).
Proof.
  unfold terminate. rewrite bind_unfold.
  destruct (get_pid limit g st) as [[pid|e] st1]; [|reflexivity].
  unfold_ops. simpl.
  destruct (session_run _ _ _ _) as [[k|f] rm]; simpl.
  - destruct (ok k); simpl.
    + destruct (print_statistic g); reflexivity.
    + destruct (result (this st1)); reflexivity.
  - destruct (fclass f); reflexivity.
Qed.

(** The call [terminate] submits once the PID is read. *)
Lemma terminate_sent g st r pid :
  result (this st) = Some r ->
  PyInt.int_of_str limit (first_line (stdout r)) = Some pid ->
  sent (snd (terminate session_run limit g st))
  = (sent st ++ [call ("kill " ++ PyStr.str_of_int pid) st])%list.
Proof.
  intros Hr Hint.
  destruct (answer_to session_run ("kill " ++ PyStr.str_of_int pid) st)
    as [k|f] eqn:Hans.
  - apply (terminate_returned session_run limit g st r pid k Hr Hint Hans).
  - apply (terminate_faulted session_run limit g st r pid f Hr Hint Hans).
Qed.

(** Without a PID [terminate] submits nothing and leaves the object and
    the remote side alone. *)
Lemma terminate_without_pid g st :
  (result (this st) = None
   \/ exists r, result (this st) = Some r
                /\ PyInt.int_of_str limit (first_line (stdout r)) = None) ->
  is_raise (fst (terminate session_run limit g st)) = true
  /\ this (snd (terminate session_run limit g st)) = this st
  /\ remote (snd (terminate session_run limit g st)) = remote st
  /\ sent (snd (terminate session_run limit g st)) = sent st.
Proof.
  intros [Hr|(r & Hr & Hint)].
  - rewrite (terminate_absent session_run limit g st Hr). auto.
  - destruct (terminate_unparsable session_run limit g st r Hr Hint)
      as (-> & ? & ? & ?).
    auto.
Qed.

End Narration.

(** *** More about [int] on the text of an integer *)

Module PyIntMore.
Import PyStr PyInt.

Lemma digits_run_string_of_uint (u : uint) :
  u <> Nil -> digits_run (NilEmpty.string_of_uint u) u.
Proof.
  induction u as [|u IH|u IH|u IH|u IH|u IH|u IH|u IH|u IH|u IH|u IH];
    intros H; [congruence|..];
    (destruct u as [|v|v|v|v|v|v|v|v|v|v];
     [apply run_last; reflexivity
     |apply run_digit; [reflexivity|apply IH; discriminate]..]).
Qed.

(** The text of an integer is a sign and a run of its digits. *)
Lemma str_of_int_shape (n : Z) :
  exists (sg : string) (neg : bool) (u : uint),
    str_of_int n = sg ++ NilEmpty.string_of_uint u
    /\ sign_text sg neg /\ u <> Nil
    /\ n = Z.of_int (if neg then Neg u else Pos u).
Proof.
  destruct n as [|p|p].
  - exists "", false, (D0 Nil). repeat split; [constructor|discriminate].
  - pose proof (DecimalPos.Unsigned.to_uint_nonnil p) as Hp.
    exists "", false, (Pos.to_uint p). repeat split.
    + unfold str_of_int. simpl. unfold NilZero.string_of_uint.
      destruct (Pos.to_uint p); [congruence|reflexivity..].
    + constructor.
    + assumption.
    + symmetry. apply (DecimalZ.of_to (Z.pos p)).
  - pose proof (DecimalPos.Unsigned.to_uint_nonnil p) as Hp.
    exists "-", true, (Pos.to_uint p). repeat split.
    + unfold str_of_int. simpl. unfold NilZero.string_of_uint.
      destruct (Pos.to_uint p); [congruence|reflexivity..].
    + constructor.
    + assumption.
    + symmetry. apply (DecimalZ.of_to (Z.neg p)).
Qed.

Lemma length_app (a b : string) :
  String.length (a ++ b) = (String.length a + String.length b)%nat.
Proof. induction a; simpl; congruence. Qed.

Lemma app_assoc (a b c : string) : (a ++ b) ++ c = a ++ b ++ c.
Proof. induction a; simpl; congruence. Qed.

(** [int] reads the text of an integer back through white space on
    either side. *)
Lemma int_of_spaced_str (limit : nat) (n : Z) (lead trail : string) :
  all_space lead = true -> all_space trail = true ->
  (String.length (str_of_int n) <= max_str_digits_threshold)%nat ->
  int_of_str limit (lead ++ str_of_int n ++ trail) = Some n.
Proof.
  intros Hlead Htrail Hlen.
  destruct (str_of_int_shape n) as (sg & neg & u & Hs & Hsg & Hu & Hn).
  apply PyIntFacts.int_of_str_literal.
  exists lead, sg, (NilEmpty.string_of_uint u), trail, neg, u.
  repeat split; try assumption.
  - rewrite Hs, app_assoc. reflexivity.
  - apply digits_run_string_of_uint. assumption.
  - apply PyIntFacts.too_long_short. rewrite PyIntFacts.nb_digits_length.
    rewrite Hs, length_app in Hlen. lia.
Qed.

End PyIntMore.

(** *** Faults, kills and stored results *)

Section Faults.

Context {Remote : Type}.
Variable session_run : Connection -> string -> bool -> Remote -> reply * Remote.
Variable limit : nat.

Implicit Types (g : Globals) (st : State Remote) (r k : Result) (f : fault).

(** X1. When the kill call raises Paramiko's [SSHException] or Invoke's
    [UnexpectedExit], [terminate] raises [RemoteCommandException] with the
    text of that exception, the exception as context, hidden unless
    [debug]; an exception of another class leaves [terminate] unchanged.
    In both cases no kill result is stored and the run result stays. *)
Theorem terminate_translates_faults g st r pid f :
  result (this st) = Some r ->
  PyInt.int_of_str limit (first_line (stdout r)) = Some pid ->
  answer_to session_run ("kill " ++ PyStr.str_of_int pid) st = Faulted f ->
  fst (terminate session_run limit g st)
  = match fclass f with
    | SSHException | UnexpectedExit =>
        Raise (RemoteCommandException (fstr f) (Some f) (negb (debug g)))
    | OtherFault _ => Raise (Fault f)
    end
  /\ kill (this (snd (terminate session_run limit g st))) = kill (this st)
  /\ result (this (snd (terminate session_run limit g st))) = Some r.
Proof.
  intros Hr Hint Hans.
  destruct (terminate_faulted session_run limit g st r pid f Hr Hint Hans)
    as (Hfst & Hthis & _).
  split; [|split].
  - rewrite Hfst. destruct (fclass f); reflexivity.
  - rewrite Hthis. reflexivity.
  - rewrite Hthis. exact Hr.
Qed.

(** X2. [run] translates only Paramiko's exceptions: when the session
    raises an exception of another class, Invoke's [UnexpectedExit]
    among them, [run] ends with that very exception, and the stored
    results are what they were. *)
Theorem run_passes_other_faults g st f :
  answer_to session_run (command (this st) ++ " & echo $!") st = Faulted f ->
  fclass f <> SSHException ->
  fst (run session_run g st) = Raise (Fault f)
  /\ result (this (snd (run session_run g st))) = result (this st)
  /\ kill (this (snd (run session_run g st))) = kill (this st).
Proof.
  intros Hans Hclass.
  destruct (run_faulted session_run g st f Hans) as [Hfst Hres].
  destruct (run_frame session_run g st) as [_ Hkill].
  repeat split; try assumption.
  rewrite Hfst. destruct (fclass f); congruence.
Qed.

(** X3. Run, then terminate: when the session answers the wrapper
    invocation with the text of [pid] on the first line, [terminate]
    submits exactly [kill] followed by that PID, with hidden output, as
    the next call over the same connection, whatever the globals and
    whatever the session then answers.  When the session reports the
    kill as a success and [print_statistic] is off, [terminate] returns,
    stores the kill result and keeps the run result. *)
Theorem terminate_kills_captured_pid g g' st r pid out :
  answer_to session_run (command (this st) ++ " & echo $!") st = Returned r ->
  stdout r = PyStr.str_of_int pid ++ PyStr.NL ++ out ->
  (String.length (PyStr.str_of_int pid) <= PyInt.max_str_digits_threshold)%nat ->
  let st' := snd (terminate session_run limit g' (snd (run session_run g st))) in
  sent st'
  = (sent st
     ++ [{| inv_client := client (this st);
            inv_command := command (this st) ++ " & echo $!";
            inv_hide := true |};
         {| inv_client := client (this st);
            inv_command := "kill " ++ PyStr.str_of_int pid;
            inv_hide := true |}])%list
  /\ forall k,
       answer_to session_run ("kill " ++ PyStr.str_of_int pid)
         (snd (run session_run g st)) = Returned k ->
       ok k = true ->
       print_statistic g' = false ->
       fst (terminate session_run limit g' (snd (run session_run g st)))
       = Return tt
       /\ kill (this st') = Some k
       /\ result (this st') = Some r.
Proof.
  intros Hans Hout Hlen. cbv zeta.
  destruct (run_returned session_run g st r Hans) as [_ Hres].
  destruct (run_frame session_run g st) as [(_ & _ & _ & _ & Hclient) _].
  assert (Hint : PyInt.int_of_str limit (first_line (stdout r)) = Some pid).
  { unfold first_line. rewrite Hout.
    rewrite PyStrFacts.split_nl_app by apply PyIntFacts.mem_nl_str_of_int.
    apply PyIntFacts.int_of_str_str_of_int. exact Hlen. }
  split.
  - rewrite (terminate_sent session_run limit g' _ r pid Hres Hint), run_sent.
    unfold call. rewrite <- Hclient, <- app_assoc. reflexivity.
  - intros k Hkans Hkok Hquiet.
    destruct (terminate_returned session_run limit g' _ r pid k Hres Hint Hkans)
      as (Hfst & Hkill & Hres' & _).
    rewrite Hkok, Hquiet in Hfst. auto.
Qed.

(** X4. White space around the PID on the first line does no harm: when
    the first line is the text of [pid] between white space, a carriage
    return say, [get_pid] returns [pid], and [terminate] submits [kill]
    with the PID written afresh, without the white space. *)
Theorem get_pid_strips_space g st r lead trail pid :
  result (this st) = Some r ->
  first_line (stdout r) = lead ++ PyStr.str_of_int pid ++ trail ->
  PyInt.all_space lead = true ->
  PyInt.all_space trail = true ->
  (String.length (PyStr.str_of_int pid) <= PyInt.max_str_digits_threshold)%nat ->
  fst (get_pid limit g st) = Return pid
  /\ sent (snd (terminate session_run limit g st))
     = (sent st ++ [{| inv_client := client (this st);
                       inv_command := "kill " ++ PyStr.str_of_int pid;
                       inv_hide := true |}])%list.
Proof.
  intros Hr Hline Hlead Htrail Hlen.
  assert (Hint : PyInt.int_of_str limit (first_line (stdout r)) = Some pid).
  { rewrite Hline. apply PyIntMore.int_of_spaced_str; assumption. }
  destruct (get_pid_stored limit g st r Hr) as [Hpid _].
  rewrite Hint in Hpid. split; [exact Hpid|].
  apply (terminate_sent session_run limit g st r pid Hr Hint).
Qed.

(** X5. A run that ends on an exception of the session leaves an earlier
    result in place: the accessors then return the data of the earlier
    run. *)
Theorem faulted_rerun_keeps_old_result g g' st r f :
  result (this st) = Some r ->
  answer_to session_run (command (this st) ++ " & echo $!") st = Faulted f ->
  is_raise (fst (run session_run g st)) = true
  /\ result (this (snd (run session_run g st))) = Some r
  /\ fst (get_exit_code g' (snd (run session_run g st))) = Return (return_code r)
  /\ fst (get_output g' (snd (run session_run g st)))
     = Return (other_lines (stdout r)).
Proof.
  intros Hr Hans.
  destruct (run_faulted session_run g st f Hans) as [Hfst Hres].
  rewrite Hr in Hres. repeat split.
  - rewrite Hfst. destruct (fclass f); reflexivity.
  - exact Hres.
  - apply (get_exit_code_stored g' _ r Hres).
  - apply (get_output_stored g' _ r Hres).
Qed.

(** X6. [terminate] can be called again: whatever the first call ended
    with, the second submits the same kill command, for the same PID. *)
Theorem terminate_repeats_same_kill g g' st r pid :
  result (this st) = Some r ->
  PyInt.int_of_str limit (first_line (stdout r)) = Some pid ->
  sent (snd (terminate session_run limit g'
               (snd (terminate session_run limit g st))))
  = (sent st
     ++ [{| inv_client := client (this st);
            inv_command := "kill " ++ PyStr.str_of_int pid;
            inv_hide := true |};
         {| inv_client := client (this st);
            inv_command := "kill " ++ PyStr.str_of_int pid;
            inv_hide := true |}])%list.
Proof.
  intros Hr Hint.
  destruct (terminate_frame session_run limit g st)
    as [(_ & _ & _ & _ & Hclient) Hres].
  rewrite Hr in Hres.
  rewrite (terminate_sent session_run limit g' _ r pid Hres Hint).
  rewrite (terminate_sent session_run limit g st r pid Hr Hint).
  unfold call. rewrite <- Hclient, <- app_assoc. reflexivity.
Qed.

End Faults.

(** *** Accessors, narration and the whole life of an object *)

Section Lifecycle.

Context {Remote : Type}.
Variable session_run : Connection -> string -> bool -> Remote -> reply * Remote.
Variable limit : nat.

Implicit Types (g : Globals) (st : State Remote) (r k : Result) (f : fault).

(** The accessors leave the object, the remote side and the calls alone. *)
Lemma accessors_untouched g st :
  (this (snd (get_pid limit g st)) = this st
   /\ remote (snd (get_pid limit g st)) = remote st
   /\ sent (snd (get_pid limit g st)) = sent st)
  /\ (this (snd (get_output g st)) = this st
      /\ remote (snd (get_output g st)) = remote st
      /\ sent (snd (get_output g st)) = sent st)
  /\ (this (snd (get_exit_code g st)) = this st
      /\ remote (snd (get_exit_code g st)) = remote st
      /\ sent (snd (get_exit_code g st)) = sent st).
Proof.
  destruct (result (this st)) as [r|] eqn:Hr.
  - split; [apply (get_pid_stored limit g st r Hr)|].
    split; [apply (get_output_stored g st r Hr)|].
    apply (get_exit_code_stored g st r Hr).
  - rewrite (get_pid_absent limit g st Hr), (get_output_absent g st Hr),
      (get_exit_code_absent g st Hr).
    simpl. auto 10.
Qed.

(** X7. The accessors do no input or output on the session: in every
    state, stored result or not, they submit nothing, leave the remote
    side and the object as they are, and with [print_statistic] off
    leave the whole state as it is. *)
Theorem accessors_do_no_io g st :
  (this (snd (get_pid limit g st)) = this st
   /\ remote (snd (get_pid limit g st)) = remote st
   /\ sent (snd (get_pid limit g st)) = sent st)
  /\ (this (snd (get_output g st)) = this st
      /\ remote (snd (get_output g st)) = remote st
      /\ sent (snd (get_output g st)) = sent st)
  /\ (this (snd (get_exit_code g st)) = this st
      /\ remote (snd (get_exit_code g st)) = remote st
      /\ sent (snd (get_exit_code g st)) = sent st)
  /\ (print_statistic g = false ->
      snd (get_pid limit g st) = st
      /\ snd (get_output g st) = st
      /\ snd (get_exit_code g st) = st).
Proof.
  destruct (result (this st)) as [r|] eqn:Hr.
  - split; [apply (get_pid_stored limit g st r Hr)|].
    split; [apply (get_output_stored g st r Hr)|].
    split; [apply (get_exit_code_stored g st r Hr)|].
    intros Hquiet. unfold_ops. rewrite Hquiet. simpl. rewrite Hr. simpl.
    pose proof (PyStrFacts.split_nl_not_nil (stdout r)) as Hne.
    destruct (PyStr.split_nl (stdout r)) as [|h t]; [congruence|]. simpl.
    destruct (PyInt.int_of_str limit h); auto.
  - rewrite (get_pid_absent limit g st Hr), (get_output_absent g st Hr),
      (get_exit_code_absent g st Hr).
    simpl. auto 10.
Qed.

(** X8. Each accessor returns exactly when it has what it reads:
    [get_output] and [get_exit_code] return whenever a result is stored,
    [get_pid] whenever a result is stored whose first line is the
    literal of an integer, and then that integer. *)
Theorem accessors_return_iff g st :
  (forall pid,
     fst (get_pid limit g st) = Return pid
     <-> exists r, result (this st) = Some r
                   /\ PyInt.int_literal limit (first_line (stdout r)) pid)
  /\ (is_raise (fst (get_output g st)) = false <-> result (this st) <> None)
  /\ (is_raise (fst (get_exit_code g st)) = false <-> result (this st) <> None).
Proof.
  destruct (result (this st)) as [r|] eqn:Hr.
  - destruct (get_pid_stored limit g st r Hr) as [Hpid _].
    destruct (get_output_stored g st r Hr) as [Hout _].
    destruct (get_exit_code_stored g st r Hr) as [Hcode _].
    rewrite Hpid, Hout, Hcode. split; [|split; split; simpl; congruence].
    intros pid. split.
    + destruct (PyInt.int_of_str limit (first_line (stdout r))) as [n|] eqn:Hint;
        [|discriminate].
      intros [= <-]. exists r. split; [reflexivity|].
      apply PyIntFacts.int_of_str_literal. exact Hint.
    + intros (r' & [= <-] & Hlit).
      apply PyIntFacts.int_of_str_literal in Hlit. rewrite Hlit. reflexivity.
  - rewrite (get_pid_absent limit g st Hr), (get_output_absent g st Hr),
      (get_exit_code_absent g st Hr).
    simpl. split; [|split; split; congruence].
    intros pid. split; [discriminate|].
    intros (r & [=] & _).
Qed.

(** X9. What is narrated, with [print_statistic] on and not otherwise.
    In every state [run] prints the command before it submits it, so the
    line is there whether the run succeeds or not.  With a stored result
    [get_pid] prints the first line as it is, even when it then fails to
    read an integer from it, [get_output] prints the other lines and
    [get_exit_code] the status.  Without a stored result the accessors
    print nothing. *)
Theorem operations_narrate g st :
  console (snd (run session_run g st))
  = (console st ++ said g ("Run command: " ++ command (this st)))%list
  /\ (forall r,
        result (this st) = Some r ->
        console (snd (get_pid limit g st))
        = (console st
           ++ said g ("PID of process: " ++ first_line (stdout r)))%list
        /\ console (snd (get_output g st))
           = (console st
              ++ said g ("Execution output: " ++ other_lines (stdout r)))%list
        /\ console (snd (get_exit_code g st))
           = (console st
              ++ said g ("Result code: "
                         ++ PyStr.str_of_int (return_code r)))%list)
  /\ (result (this st) = None ->
      console (snd (get_pid limit g st)) = console st
      /\ console (snd (get_output g st)) = console st
      /\ console (snd (get_exit_code g st)) = console st).
Proof.
  split; [apply run_console|]. split.
  - intros r Hr.
    split; [apply (get_pid_console limit g st r Hr)|].
    split; [apply (get_output_console g st r Hr)|].
    apply (get_exit_code_console g st r Hr).
  - intros Hr.
    rewrite (get_pid_absent limit g st Hr), (get_output_absent g st Hr),
      (get_exit_code_absent g st Hr).
    simpl. auto.
Qed.

(** X10. [terminate] never reports the kill: in every state and under
    all globals the console after [terminate] is the console after its
    call of [get_pid]; the line of line 155 is never printed. *)
Theorem terminate_never_narrates_kill g st :
  console (snd (terminate session_run limit g st))
  = console (snd (get_pid limit g st))
  /\ (print_statistic g = false ->
      console (snd (terminate session_run limit g st)) = console st).
Proof.
  split; [apply terminate_console|].
  intros Hquiet. rewrite terminate_console.
  destruct (result (this st)) as [r|] eqn:Hr.
  - rewrite (get_pid_console limit g st r Hr). unfold said. rewrite Hquiet.
    apply app_nil_r.
  - rewrite (get_pid_absent limit g st Hr). reflexivity.
Qed.

(** Each call keeps the life-cycle invariant. *)
Lemma perform_lifecycle g op st :
  lifecycle st -> lifecycle (perform session_run limit g op st).
Proof.
  intros (Hclient & Hsent & Hkill & Hres).
  assert (Hsame : forall st',
            this st' = this st -> remote st' = remote st -> sent st' = sent st ->
            lifecycle st').
  { intros st' Ha _ Hc. unfold lifecycle. rewrite Ha, Hc. auto. }
  destruct op; simpl.
  - (* run *)
    destruct (run_frame session_run g st) as [(Hc & Hh & Hu & Hp & Hcl) Hk].
    pose proof (run_sent session_run g st) as Hs. cbv zeta in Hs.
    unfold lifecycle.
    rewrite <- Hc, <- Hh, <- Hu, <- Hp, <- Hcl, Hk, Hs.
    split; [exact Hclient|]. split; [|split].
    + apply Forall_app. split; [exact Hsent|].
      constructor; [|constructor]. unfold call, wrapper_or_kill. simpl. auto.
    + intros Hk'. specialize (Hkill Hk').
      destruct (answer_to session_run (command (this st) ++ " & echo $!") st)
        as [r|f] eqn:Hans.
      * destruct (run_returned session_run g st r Hans) as [_ ->]. discriminate.
      * destruct (run_faulted session_run g st f Hans) as [_ ->]. exact Hkill.
    + intros _. apply in_or_app. right. left. reflexivity.
  - (* get_pid *)
    destruct (accessors_untouched g st) as ((? & ? & ?) & _). auto.
  - (* terminate *)
    destruct (terminate_frame session_run limit g st)
      as [(Hc & Hh & Hu & Hp & Hcl) Hr].
    destruct (result (this st)) as [r|] eqn:Hres0.
    + destruct (PyInt.int_of_str limit (first_line (stdout r))) as [pid|] eqn:Hint.
      * pose proof (terminate_sent session_run limit g st r pid Hres0 Hint) as Hs.
        unfold lifecycle.
        rewrite <- Hc, <- Hh, <- Hu, <- Hp, <- Hcl, Hr, Hs.
        split; [exact Hclient|]. split; [|split].
        -- apply Forall_app. split; [exact Hsent|].
           constructor; [|constructor]. unfold call, wrapper_or_kill. simpl.
           split; [reflexivity|]. split; [reflexivity|]. right. exists pid.
           reflexivity.
        -- intros _. discriminate.
        -- intros Hne. apply in_or_app. left. apply Hres. exact Hne.
      * destruct (terminate_unparsable session_run limit g st r Hres0 Hint)
          as (_ & ? & ? & ?).
        apply Hsame; assumption.
    + rewrite (terminate_absent session_run limit g st Hres0). simpl.
      unfold lifecycle. rewrite Hres0. auto.
  - (* get_output *)
    destruct (accessors_untouched g st) as (_ & (? & ? & ?) & _). auto.
  - (* get_exit_code *)
    destruct (accessors_untouched g st) as (_ & _ & (? & ? & ?)). auto.
Qed.

(** With [print_statistic] off no call prints. *)
Lemma perform_silent g op st :
  print_statistic g = false ->
  console (perform session_run limit g op st) = console st.
Proof.
  intros Hquiet.
  assert (Hsaid : forall line, said g line = []) by (intros; unfold said; rewrite Hquiet; reflexivity).
  destruct op; simpl.
  - rewrite run_console, Hsaid. apply app_nil_r.
  - destruct (result (this st)) as [r|] eqn:Hr.
    + rewrite (get_pid_console limit g st r Hr), Hsaid. apply app_nil_r.
    + rewrite (get_pid_absent limit g st Hr). reflexivity.
  - rewrite terminate_console.
    destruct (result (this st)) as [r|] eqn:Hr.
    + rewrite (get_pid_console limit g st r Hr), Hsaid. apply app_nil_r.
    + rewrite (get_pid_absent limit g st Hr). reflexivity.
  - destruct (result (this st)) as [r|] eqn:Hr.
    + rewrite (get_output_console g st r Hr), Hsaid. apply app_nil_r.
    + rewrite (get_output_absent g st Hr). reflexivity.
  - destruct (result (this st)) as [r|] eqn:Hr.
    + rewrite (get_exit_code_console g st r Hr), Hsaid. apply app_nil_r.
    + rewrite (get_exit_code_absent g st Hr). reflexivity.
Qed.

Lemma init_lifecycle g c h u p (rm : Remote) : lifecycle (init g c h u p rm).
Proof.
  unfold lifecycle. simpl. repeat split.
  - constructor.
  - congruence.
  - congruence.
Qed.

(** X11. Whatever methods a caller invokes on a fresh object, in whatever
    order, and whether they return or raise, at every point: the
    connection is the one the constructor built from host, user and
    password; every call submitted went over it with hidden output and
    was the wrapper invocation of the command or a kill of an integer; a
    kill result is stored only when a run result is; a run result is
    stored only after the wrapper invocation was submitted; and with
    [print_statistic] off the console is empty. *)
Theorem lifecycle_invariant g c h u p (rm : Remote) (ops : list operation) :
  let st := perform_all session_run limit g ops (init g c h u p rm) in
  lifecycle st
  /\ command (this st) = c
  /\ client (this st)
     = {| conn_host := h; conn_user := u; connect_kwargs := connect_options p |}
  /\ (print_statistic g = false -> console st = []).
Proof.
  cbv zeta. unfold perform_all.
  assert (Hgen : forall st0,
    lifecycle st0 ->
    let st := fold_left (fun s op => perform session_run limit g op s) ops st0 in
    lifecycle st
    /\ command (this st) = command (this st0)
    /\ client (this st) = client (this st0)
    /\ (print_statistic g = false -> console st = console st0)).
  { induction ops as [|op ops IH]; intros st0 H0; simpl.
    - auto.
    - destruct (IH (perform session_run limit g op st0)
                  (perform_lifecycle g op st0 H0))
        as (Hl & Hc & Hcl & Hq).
      split; [exact Hl|].
      assert (Hsame : same_parameters (this st0)
                        (this (perform session_run limit g op st0))).
      { destruct op; simpl.
        - apply run_frame.
        - destruct (accessors_untouched g st0) as ((-> & _) & _).
          unfold same_parameters. auto.
        - apply terminate_frame.
        - destruct (accessors_untouched g st0) as (_ & (-> & _) & _).
          unfold same_parameters. auto.
        - destruct (accessors_untouched g st0) as (_ & _ & (-> & _)).
          unfold same_parameters. auto. }
      destruct Hsame as (Hc0 & _ & _ & _ & Hcl0).
      split; [congruence|]. split; [congruence|].
      intros Hquiet. rewrite (Hq Hquiet). apply perform_silent. exact Hquiet. }
  destruct (Hgen (init g c h u p rm) (init_lifecycle g c h u p rm))
    as (Hl & Hc & Hcl & Hq).
  split; [exact Hl|]. split; [exact Hc|]. split; [exact Hcl|].
  intros Hquiet. rewrite (Hq Hquiet). simpl. rewrite Hquiet. reflexivity.
Qed.

End Lifecycle.

(** *** [main] *)

Section Main.

Context {Remote : Type}.
Variable session_run : Connection -> string -> bool -> Remote -> reply * Remote.
Variable limit : nat.
Variable connection_fault :
  string -> string -> list (string * string) -> option fault.

Implicit Types (g : Globals) (st : State Remote) (r k : Result) (f : fault).

(** The three accessors in a row, as [main] calls them after [run], on a
    state with a stored result. *)
Lemma accessors_in_a_row g st r :
  result (this st) = Some r ->
  let rest :=
    bind Remote (get_pid limit g)
      (fun _ => bind Remote (get_output g)
         (fun _ => bind Remote (get_exit_code g) (fun _ => ret Remote tt))) in
  fst (rest st)
  = match PyInt.int_of_str limit (first_line (stdout r)) with
    | Some _ => Return tt
    | None => Raise (ValueError (first_line (stdout r)))
    end
  /\ sent (snd (rest st)) = sent st
  /\ console (snd (rest st))
     = (console st
        ++ said g ("PID of process: " ++ first_line (stdout r))
        ++ match PyInt.int_of_str limit (first_line (stdout r)) with
           | Some _ =>
               said g ("Execution output: " ++ other_lines (stdout r))
               ++ said g ("Result code: " ++ PyStr.str_of_int (return_code r))
           | None => []
           end)%list.
Proof.
  intros Hr. cbv zeta.
  destruct (get_pid_stored limit g st r Hr) as (Hpid & Hthis1 & _ & Hsent1).
  pose proof (get_pid_console limit g st r Hr) as Hcon1.
  destruct (PyInt.int_of_str limit (first_line (stdout r))) as [pid|].
  - rewrite (bind_return (get_pid limit g) _ st pid Hpid).
    set (st1 := snd (get_pid limit g st)) in *.
    assert (Hr1 : result (this st1) = Some r) by (rewrite Hthis1; exact Hr).
    destruct (get_output_stored g st1 r Hr1) as (Hout & Hthis2 & _ & Hsent2).
    pose proof (get_output_console g st1 r Hr1) as Hcon2.
    rewrite (bind_return (get_output g) _ st1 _ Hout).
    set (st2 := snd (get_output g st1)) in *.
    assert (Hr2 : result (this st2) = Some r) by (rewrite Hthis2; exact Hr1).
    destruct (get_exit_code_stored g st2 r Hr2) as (Hcode & _ & _ & Hsent3).
    pose proof (get_exit_code_console g st2 r Hr2) as Hcon3.
    rewrite (bind_return (get_exit_code g) _ st2 _ Hcode).
    unfold ret. simpl.
    split; [reflexivity|]. split; [congruence|].
    rewrite Hcon3, Hcon2, Hcon1, <- !app_assoc. reflexivity.
  - rewrite (bind_raise (get_pid limit g) _ st _ Hpid). simpl.
    split; [reflexivity|]. split; [exact Hsent1|].
    rewrite Hcon1, app_nil_r. reflexivity.
Qed.

(** The four calls of [main] on an object. *)
Lemma calls_of_main g st :
  let res :=
    bind Remote (run session_run g)
      (fun _ => bind Remote (get_pid limit g)
         (fun _ => bind Remote (get_output g)
            (fun _ => bind Remote (get_exit_code g)
               (fun _ => ret Remote tt)))) st in
  sent (snd res)
  = (sent st ++ [call (command (this st) ++ " & echo $!") st])%list
  /\ fst res
     = match answer_to session_run (command (this st) ++ " & echo $!") st with
       | Returned r =>
           if ok r
           then match PyInt.int_of_str limit (first_line (stdout r)) with
                | Some _ => Return tt
                | None => Raise (ValueError (first_line (stdout r)))
                end
           else Raise (RemoteCommandException (stderr r) None false)
       | Faulted f =>
           match fclass f with
           | SSHException =>
               Raise (RemoteCommandException (fstr f) (Some f) (negb (debug g)))
           | _ => Raise (Fault f)
           end
       end
  /\ (print_statistic g = false -> console (snd res) = console st)
  /\ forall r pid,
       print_statistic g = true ->
       answer_to session_run (command (this st) ++ " & echo $!") st = Returned r ->
       ok r = true ->
       PyInt.int_of_str limit (first_line (stdout r)) = Some pid ->
       console (snd res)
       = (console st
          ++ [("Run command: " ++ command (this st))%string;
              ("PID of process: " ++ first_line (stdout r))%string;
              ("Execution output: " ++ other_lines (stdout r))%string;
              ("Result code: " ++ PyStr.str_of_int (return_code r))%string])%list.
Proof.
  cbv zeta.
  pose proof (run_sent session_run g st) as Hs. cbv zeta in Hs.
  pose proof (run_console session_run g st) as Hc.
  assert (Hquiet : print_statistic g = false -> forall line, said g line = [])
    by (intros H line; unfold said; rewrite H; reflexivity).
  assert (Hloud : print_statistic g = true -> forall line, said g line = [line])
    by (intros H line; unfold said; rewrite H; reflexivity).
  destruct (answer_to session_run (command (this st) ++ " & echo $!") st)
    as [r|f] eqn:Hans.
  - destruct (run_returned session_run g st r Hans) as [Hfst Hres].
    destruct (ok r) eqn:Hok.
    + rewrite (bind_return (run session_run g) _ st tt Hfst).
      destruct (accessors_in_a_row g _ r Hres) as (Hout & Hsent & Hcon).
      split; [rewrite Hsent; exact Hs|]. split; [exact Hout|]. split.
      * intros Hq. rewrite Hcon, Hc, !(Hquiet Hq).
        destruct (PyInt.int_of_str limit (first_line (stdout r)));
          rewrite !app_nil_r; reflexivity.
      * intros r' pid Hl [= <-] _ Hint.
        rewrite Hcon, Hint, Hc, !(Hloud Hl), <- !app_assoc. reflexivity.
    + rewrite (bind_raise (run session_run g) _ st _ Hfst).
      split; [exact Hs|]. split; [reflexivity|]. split.
      * intros Hq. simpl. rewrite Hc, (Hquiet Hq). apply app_nil_r.
      * intros r' pid _ [= <-] Hok'. congruence.
  - destruct (run_faulted session_run g st f Hans) as [Hfst _].
    assert (Hshape :
      exists e, fst (run session_run g st) = Raise e
                /\ Raise e
                   = match fclass f with
                     | SSHException =>
                         Raise (RemoteCommandException (fstr f) (Some f)
                                  (negb (debug g)))
                     | _ => @Raise unit (Fault f)
                     end).
    { rewrite Hfst. destruct (fclass f); eauto. }
    destruct Hshape as (e & He & Hmatch).
    rewrite (bind_raise (run session_run g) _ st e He).
    split; [exact Hs|]. split; [exact Hmatch|]. split.
    + intros Hq. simpl. rewrite Hc, (Hquiet Hq). apply app_nil_r.
    + intros r' pid _ [=].
Qed.

(** The flags after [raise_globals]. *)
Lemma raise_globals_flags v g :
  debug (raise_globals v g) = (debug g || (2 <=? v)%Z)
  /\ print_statistic (raise_globals v g) = (print_statistic g || (1 <=? v)%Z).
Proof.
  unfold raise_globals.
  destruct (Z.leb_spec 2 v); destruct (Z.leb_spec 1 v); try lia; simpl;
    rewrite ?orb_true_r, ?orb_false_r; auto.
Qed.

(** X12. The calls of [main].  When the constructor of the connection
    raises, [main] ends with that exception, submits nothing and prints
    nothing.  Otherwise it submits one call and one only: the wrapper
    invocation of its command, with hidden output, over the connection
    for its host, user and password; it never submits a kill, whatever
    the session answers, whatever the verbosity and the globals. *)
Theorem main_submits_one_call g0 c h u p v (rm : Remote) :
  match connection_fault h u (connect_options p) with
  | Some f =>
      ending (main session_run limit connection_fault g0 c h u p v rm)
      = Raise (Fault f)
      /\ calls (main session_run limit connection_fault g0 c h u p v rm) = []
      /\ printed (main session_run limit connection_fault g0 c h u p v rm) = []
  | None =>
      calls (main session_run limit connection_fault g0 c h u p v rm)
      = [{| inv_client := {| conn_host := h; conn_user := u;
                             connect_kwargs := connect_options p |};
            inv_command := c ++ " & echo $!";
            inv_hide := true |}]
  end.
Proof.
  unfold main, construct.
  change (match p with None => [] | Some p0 => [("password", p0)] end)
    with (connect_options p).
  destruct (connection_fault h u (connect_options p)) as [f|].
  - simpl. auto.
  - cbn [calls].
    destruct (calls_of_main (raise_globals v g0)
                (init (raise_globals v g0) c h u p rm)) as (Hsent & _).
    exact Hsent.
Qed.

(** X13. How [main] ends.  When the constructor of the connection
    raises: with that exception.  Otherwise by the answer of the session
    to the wrapper invocation.  A result flagged as success whose first
    line reads as an integer: [main] returns.  A result flagged as
    success whose first line does not: the [ValueError] of [get_pid].  A
    result not flagged as success: [RemoteCommandException] with the
    standard-error text.  A Paramiko exception:
    [RemoteCommandException] with its text, its context hidden unless
    the verbosity is 2 or more or [debug] was set already.  Any other
    exception of the session: that exception. *)
Theorem main_outcome g0 c h u p v (rm : Remote) :
  ending (main session_run limit connection_fault g0 c h u p v rm)
  = match connection_fault h u (connect_options p) with
    | Some f => Raise (Fault f)
    | None =>
        match fst (session_run
                     {| conn_host := h; conn_user := u;
                        connect_kwargs := connect_options p |}
                     (c ++ " & echo $!") true rm) with
        | Returned r =>
            if ok r
            then match PyInt.int_of_str limit (first_line (stdout r)) with
                 | Some _ => Return tt
                 | None => Raise (ValueError (first_line (stdout r)))
                 end
            else Raise (RemoteCommandException (stderr r) None false)
        | Faulted f =>
            match fclass f with
            | SSHException =>
                Raise (RemoteCommandException (fstr f) (Some f)
                         (negb (debug g0 || (2 <=? v)%Z)))
            | _ => Raise (Fault f)
            end
        end
    end.
Proof.
  unfold main, construct.
  change (match p with None => [] | Some p0 => [("password", p0)] end)
    with (connect_options p).
  destruct (connection_fault h u (connect_options p)) as [f|].
  - reflexivity.
  - cbn [ending].
    destruct (calls_of_main (raise_globals v g0)
                (init (raise_globals v g0) c h u p rm)) as (_ & Hfst & _).
    rewrite Hfst.
    destruct (raise_globals_flags v g0) as [-> _]. reflexivity.
Qed.

(** X14. The globals and the console of [main].  [main] only ever raises
    the globals: [debug] is set afterwards when it was set before or the
    verbosity is 2 or more, [print_statistic] when it was set before or
    the verbosity is 1 or more.  When [print_statistic] is then off
    [main] prints nothing, whatever happens; when the constructor of the
    connection raises it prints nothing either.  When [print_statistic]
    is on, the constructor returns and the session answers with a result
    flagged as success whose first line reads as an integer, [main]
    prints the five lines of the transcript, in order. *)
Theorem main_console g0 c h u p v (rm : Remote) :
  let e := main session_run limit connection_fault g0 c h u p v rm in
  debug (globals_left e) = (debug g0 || (2 <=? v)%Z)
  /\ print_statistic (globals_left e) = (print_statistic g0 || (1 <=? v)%Z)
  /\ (print_statistic (globals_left e) = false -> printed e = [])
  /\ (connection_fault h u (connect_options p) <> None -> printed e = [])
  /\ forall r pid,
       print_statistic (globals_left e) = true ->
       connection_fault h u (connect_options p) = None ->
       fst (session_run
              {| conn_host := h; conn_user := u;
                 connect_kwargs := connect_options p |}
              (c ++ " & echo $!") true rm) = Returned r ->
       ok r = true ->
       PyInt.int_of_str limit (first_line (stdout r)) = Some pid ->
       printed e = transcript c h u r.
Proof.
  cbv zeta. unfold main, construct.
  change (match p with None => [] | Some p0 => [("password", p0)] end)
    with (connect_options p).
  destruct (raise_globals_flags v g0) as [Hd Hp].
  destruct (connection_fault h u (connect_options p)) as [f|].
  - cbn [globals_left printed].
    split; [exact Hd|]. split; [exact Hp|]. split; [reflexivity|].
    split; [reflexivity|]. intros r pid _ [=].
  - cbn [globals_left printed].
    split; [exact Hd|]. split; [exact Hp|].
    destruct (calls_of_main (raise_globals v g0)
                (init (raise_globals v g0) c h u p rm))
      as (_ & _ & Hquiet & Hloud).
    split; [|split].
    + intros Hq. rewrite (Hquiet Hq). simpl. rewrite Hq. reflexivity.
    + intros Hne. congruence.
    + intros r pid Hl _ Hans Hok Hint.
      rewrite (Hloud r pid Hl Hans Hok Hint). simpl. rewrite Hl. reflexivity.
Qed.

End Main.

(** *** What the operations can end with *)

Section Outcomes.

Context {Remote : Type}.
Variable session_run : Connection -> string -> bool -> Remote -> reply * Remote.
Variable limit : nat.

Implicit Types (g : Globals) (st : State Remote) (r k : Result) (f : fault).

(** [get_pid] does not read [debug]. *)
Lemma get_pid_debug g g' st :
  print_statistic g = print_statistic g' ->
  get_pid limit g st = get_pid limit g' st.
Proof.
  intros H. unfold get_pid. rewrite H. reflexivity.
Qed.

(** X15. [debug] changes nothing but the hiding of the context: under two
    settings of the globals with the same [print_statistic], every
    operation leaves the same state (object, remote side, calls and
    console) and ends alike, up to the context of a
    [RemoteCommandException]. *)
Theorem debug_changes_only_context g g' st :
  print_statistic g = print_statistic g' ->
  (erase_context (fst (run session_run g st))
   = erase_context (fst (run session_run g' st))
   /\ snd (run session_run g st) = snd (run session_run g' st))
  /\ (erase_context (fst (terminate session_run limit g st))
      = erase_context (fst (terminate session_run limit g' st))
      /\ snd (terminate session_run limit g st)
         = snd (terminate session_run limit g' st))
  /\ get_pid limit g st = get_pid limit g' st
  /\ get_output g st = get_output g' st
  /\ get_exit_code g st = get_exit_code g' st.
Proof.
  intros Hps. split; [|split; [|split; [|split]]].
  - unfold_ops. rewrite <- Hps.
    destruct (print_statistic g); simpl;
      destruct (session_run _ _ _ _) as [[r|f] rm]; simpl;
      try (destruct (ok r); simpl; split; reflexivity);
      destruct (fclass f); simpl; split; reflexivity.
  - unfold terminate. rewrite !bind_unfold.
    rewrite (get_pid_debug g g' st Hps).
    destruct (get_pid limit g' st) as [[pid|e] st1]; [|split; reflexivity].
    unfold_ops. rewrite <- Hps. simpl.
    destruct (session_run _ _ _ _) as [[k|f] rm]; simpl.
    + destruct (ok k); simpl.
      * destruct (print_statistic g); simpl; split; reflexivity.
      * destruct (result (this st1)); simpl; split; reflexivity.
    + destruct (fclass f); simpl; split; reflexivity.
  - apply get_pid_debug. exact Hps.
  - unfold get_output. rewrite Hps. reflexivity.
  - unfold get_exit_code. rewrite Hps. reflexivity.
Qed.

(** X16. What each operation can end with, in every state.  [run]:
    it returns, or raises [RemoteCommandException], or passes on an
    exception of the session that is not Paramiko's.  [get_pid]: it
    returns, or raises the attribute error of the absent result, or the
    [ValueError] of [int].  [get_output], [get_exit_code]: they return
    or raise the attribute error.  Indexing the first line never
    fails, and [run] never fails on reading back the result it has
    just stored. *)
Theorem operations_end_with g st :
  (fst (run session_run g st) = Return tt
   \/ (exists msg ctx hidden,
         fst (run session_run g st)
         = Raise (RemoteCommandException msg ctx hidden))
   \/ (exists f, fst (run session_run g st) = Raise (Fault f)
                 /\ fclass f <> SSHException))
  /\ ((exists pid, fst (get_pid limit g st) = Return pid)
      \/ fst (get_pid limit g st) = Raise (AttributeError "stdout")
      \/ (exists line, fst (get_pid limit g st) = Raise (ValueError line)))
  /\ ((exists out, fst (get_output g st) = Return out)
      \/ fst (get_output g st) = Raise (AttributeError "stdout"))
  /\ ((exists code, fst (get_exit_code g st) = Return code)
      \/ fst (get_exit_code g st) = Raise (AttributeError "return_code")).
Proof.
  split; [|split; [|split]].
  - destruct (answer_to session_run (command (this st) ++ " & echo $!") st)
      as [r|f] eqn:Hans.
    + destruct (run_returned session_run g st r Hans) as [-> _].
      destruct (ok r); eauto 10.
    + destruct (run_faulted session_run g st f Hans) as [-> _].
      destruct (fclass f) eqn:Hc;
        [right; left; eauto
        |right; right; exists f; split; congruence..].
  - destruct (result (this st)) as [r|] eqn:Hr.
    + destruct (get_pid_stored limit g st r Hr) as [-> _].
      destruct (PyInt.int_of_str limit (first_line (stdout r))); eauto 10.
    + rewrite (get_pid_absent limit g st Hr). auto.
  - destruct (result (this st)) as [r|] eqn:Hr.
    + destruct (get_output_stored g st r Hr) as [-> _]. eauto.
    + rewrite (get_output_absent g st Hr). auto.
  - destruct (result (this st)) as [r|] eqn:Hr.
    + destruct (get_exit_code_stored g st r Hr) as [-> _]. eauto.
    + rewrite (get_exit_code_absent g st Hr). auto.
Qed.

(** X17. What [terminate] can end with, in every state: it returns, or
    raises [RemoteCommandException], or passes on an exception of the
    session that is neither Paramiko's nor Invoke's, or fails as
    [get_pid] fails, or, after a kill reported as a success, raises
    [TypeError] when [print_statistic] is on.  It returns only with
    [print_statistic] off and a kill result stored. *)
Theorem terminate_ends_with g st :
  (fst (terminate session_run limit g st) = Return tt
   /\ print_statistic g = false
   /\ exists k, kill (this (snd (terminate session_run limit g st))) = Some k
                /\ ok k = true)
  \/ (exists msg ctx hidden,
        fst (terminate session_run limit g st)
        = Raise (RemoteCommandException msg ctx hidden))
  \/ (exists f name, fst (terminate session_run limit g st) = Raise (Fault f)
                     /\ fclass f = OtherFault name)
  \/ fst (terminate session_run limit g st) = Raise (AttributeError "stdout")
  \/ (exists line, fst (terminate session_run limit g st) = Raise (ValueError line))
  \/ (fst (terminate session_run limit g st) = Raise TypeError
      /\ print_statistic g = true).
Proof.
  destruct (result (this st)) as [r|] eqn:Hr.
  - destruct (PyInt.int_of_str limit (first_line (stdout r))) as [pid|] eqn:Hint.
    + destruct (answer_to session_run ("kill " ++ PyStr.str_of_int pid) st)
        as [k|f] eqn:Hans.
      * destruct (terminate_returned session_run limit g st r pid k Hr Hint Hans)
          as (-> & Hkill & _).
        destruct (ok k) eqn:Hok.
        -- destruct (print_statistic g); [auto 10|].
           left. split; [reflexivity|]. split; [reflexivity|]. eauto.
        -- right. left. eauto 10.
      * destruct (terminate_faulted session_run limit g st r pid f Hr Hint Hans)
          as (-> & _).
        destruct (fclass f) eqn:Hc.
        -- right. left. eauto 10.
        -- right. left. eauto 10.
        -- right. right. left. eauto 10.
    + destruct (terminate_unparsable session_run limit g st r Hr Hint) as (-> & _).
      right. right. right. right. left. eauto 10.
  - rewrite (terminate_absent session_run limit g st Hr). simpl. auto 10.
Qed.

End Outcomes.

(** *** The further properties on concrete sessions *)

(** The kill ends on Invoke's exception. *)
Lemma terminate_translates_faults_witness :
  answer_to session "kill 4242"
    (after_run silent "sleep 5" [Returned spawned; Faulted unexpected_exit])
  = Faulted unexpected_exit
  /\ fst (terminate session limit silent
            (after_run silent "sleep 5" [Returned spawned; Faulted unexpected_exit]))
     = Raise (RemoteCommandException "Encountered a bad command exit code!"
                (Some unexpected_exit) true)
  /\ kill (this (snd (terminate session limit silent
                        (after_run silent "sleep 5"
                           [Returned spawned; Faulted unexpected_exit]))))
     = None.
Proof.
  split; [reflexivity|].
  destruct (terminate_translates_faults session limit silent
              (after_run silent "sleep 5" [Returned spawned; Faulted unexpected_exit])
              spawned 4242%Z unexpected_exit eq_refl eq_refl eq_refl)
    as (Hfst & Hkill & _).
  exact (conj Hfst Hkill).
Defined.

(** The same exception raised to [run] passes through. *)
Lemma run_passes_other_faults_witness :
  fclass unexpected_exit <> SSHException
  /\ fst (run session silent (fresh silent "sleep 5" [Faulted unexpected_exit]))
     = Raise (Fault unexpected_exit)
  /\ result (this (after_run silent "sleep 5" [Faulted unexpected_exit])) = None.
Proof.
  assert (Hclass : fclass unexpected_exit <> SSHException) by discriminate.
  split; [exact Hclass|].
  destruct (run_passes_other_faults session silent
              (fresh silent "sleep 5" [Faulted unexpected_exit])
              unexpected_exit eq_refl Hclass)
    as (Hfst & Hres & _).
  exact (conj Hfst Hres).
Defined.

Lemma terminate_kills_captured_pid_witness :
  map inv_command
    (sent (snd (terminate session limit narrated
                  (after_run silent "echo hello"
                     [Returned hello; Returned no_such_process]))))
  = ["echo hello & echo $!"; "kill 4242"]
  /\ map inv_command
       (sent (snd (terminate session limit silent
                     (after_run silent "echo hello" [Returned hello; Returned killed]))))
     = ["echo hello & echo $!"; "kill 4242"]
  /\ fst (terminate session limit silent
            (after_run silent "echo hello" [Returned hello; Returned killed]))
     = Return tt.
Proof.
  assert (Hlen : (String.length (PyStr.str_of_int 4242)
                  <= PyInt.max_str_digits_threshold)%nat)
    by (apply Nat.leb_le; reflexivity).
  destruct (terminate_kills_captured_pid session limit silent narrated
              (fresh silent "echo hello" [Returned hello; Returned no_such_process])
              hello 4242%Z ("hello" ++ PyStr.NL) eq_refl eq_refl Hlen)
    as (Hsent1 & _).
  destruct (terminate_kills_captured_pid session limit silent silent
              (fresh silent "echo hello" [Returned hello; Returned killed])
              hello 4242%Z ("hello" ++ PyStr.NL) eq_refl eq_refl Hlen)
    as (Hsent2 & Hk).
  destruct (Hk killed eq_refl eq_refl eq_refl) as (Hfst & _).
  exact (conj (f_equal (map inv_command) Hsent1)
           (conj (f_equal (map inv_command) Hsent2) Hfst)).
Defined.

(** Under a terminal the first line ends with a carriage return. *)
Lemma get_pid_strips_space_witness :
  first_line (stdout under_pty) = "" ++ "4242" ++ String "013" ""
  /\ fst (get_pid limit silent
            (after_run silent "echo hello" [Returned under_pty; Returned killed]))
     = Return 4242%Z
  /\ map inv_command
       (sent (snd (terminate session limit silent
                     (after_run silent "echo hello"
                        [Returned under_pty; Returned killed]))))
     = ["echo hello & echo $!"; "kill 4242"].
Proof.
  assert (Hlen : (String.length (PyStr.str_of_int 4242)
                  <= PyInt.max_str_digits_threshold)%nat)
    by (apply Nat.leb_le; reflexivity).
  split; [reflexivity|].
  destruct (get_pid_strips_space session limit silent
              (after_run silent "echo hello" [Returned under_pty; Returned killed])
              under_pty "" (String "013" "") 4242%Z
              eq_refl eq_refl eq_refl eq_refl Hlen)
    as (Hpid & Hsent).
  split; [exact Hpid|].
  exact (f_equal (map inv_command) Hsent).
Defined.

(** A second run times out: the exit code is still that of the first. *)
Lemma faulted_rerun_keeps_old_result_witness :
  result (this (after_run silent "sleep 5" [Returned spawned; Faulted timeout]))
  = Some spawned
  /\ is_raise (fst (run session silent
                      (after_run silent "sleep 5" [Returned spawned; Faulted timeout])))
     = true
  /\ fst (get_exit_code silent
            (snd (run session silent
                    (after_run silent "sleep 5" [Returned spawned; Faulted timeout]))))
     = Return 0%Z.
Proof.
  split; [reflexivity|].
  destruct (faulted_rerun_keeps_old_result session silent silent
              (after_run silent "sleep 5" [Returned spawned; Faulted timeout])
              spawned timeout eq_refl eq_refl)
    as (Hraise & _ & Hcode & _).
  exact (conj Hraise Hcode).
Defined.

Lemma terminate_repeats_same_kill_witness :
  map inv_command
    (sent (snd (terminate session limit silent
                  (snd (terminate session limit silent
                          (after_run silent "sleep 5"
                             [Returned spawned; Returned killed;
                              Returned no_such_process]))))))
  = ["sleep 5 & echo $!"; "kill 4242"; "kill 4242"].
Proof.
  exact (f_equal (map inv_command)
           (terminate_repeats_same_kill session limit silent silent
              (after_run silent "sleep 5"
                 [Returned spawned; Returned killed; Returned no_such_process])
              spawned 4242%Z eq_refl eq_refl)).
Defined.

Lemma accessors_do_no_io_witness :
  snd (get_pid limit silent (after_run silent "echo hello" [Returned hello]))
  = after_run silent "echo hello" [Returned hello]
  /\ snd (get_output silent (after_run silent "echo hello" [Returned hello]))
     = after_run silent "echo hello" [Returned hello]
  /\ snd (get_exit_code silent (after_run silent "echo hello" [Returned hello]))
     = after_run silent "echo hello" [Returned hello].
Proof.
  exact (proj2 (proj2 (proj2 (accessors_do_no_io limit silent
                                (after_run silent "echo hello" [Returned hello]))))
           eq_refl).
Defined.

Lemma accessors_return_iff_witness :
  PyInt.int_literal limit "4242" 4242%Z
  /\ fst (get_pid limit narrated (after_run silent "echo hello" [Returned hello]))
     = Return 4242%Z.
Proof.
  assert (Hlit : PyInt.int_literal limit "4242" 4242%Z)
    by (apply PyIntFacts.int_of_str_literal; reflexivity).
  split; [exact Hlit|].
  apply (proj1 (accessors_return_iff limit narrated
                  (after_run silent "echo hello" [Returned hello]))).
  exists hello. split; [reflexivity|exact Hlit].
Defined.

Lemma operations_narrate_witness :
  console (snd (run session narrated (fresh narrated "sleep 5" [Faulted timeout])))
  = ["Connect to host: 10.0.0.7" ++ PyStr.NL ++ "With user: john";
     "Run command: sleep 5"]
  /\ console (snd (get_pid limit narrated
                     (after_run silent "sleep 5" [Returned banner])))
     = ["PID of process: Last login: Tue"]
  /\ console (snd (get_output narrated
                     (after_run silent "echo hello" [Returned hello])))
     = ["Execution output: hello" ++ PyStr.NL]
  /\ console (snd (get_exit_code narrated (fresh silent "sleep 5" [])))
     = [].
Proof.
  destruct (operations_narrate session limit narrated
              (fresh narrated "sleep 5" [Faulted timeout]))
    as (Hrun & _).
  destruct (operations_narrate session limit narrated
              (after_run silent "sleep 5" [Returned banner]))
    as (_ & Hstored1 & _).
  destruct (Hstored1 banner eq_refl) as (Hpid & _).
  destruct (operations_narrate session limit narrated
              (after_run silent "echo hello" [Returned hello]))
    as (_ & Hstored2 & _).
  destruct (Hstored2 hello eq_refl) as (_ & Hout & _).
  destruct (operations_narrate session limit narrated
              (fresh silent "sleep 5" []))
    as (_ & _ & Habsent).
  destruct (Habsent eq_refl) as (_ & _ & Hcode).
  exact (conj Hrun (conj Hpid (conj Hout Hcode))).
Defined.

(** The kill succeeds and is not reported: the console has the line of
    [get_pid] and no other. *)
Lemma terminate_never_narrates_kill_witness :
  console (snd (terminate session limit narrated
                  (after_run silent "sleep 5" [Returned spawned; Returned killed])))
  = console (snd (get_pid limit narrated
                    (after_run silent "sleep 5" [Returned spawned; Returned killed])))
  /\ console (snd (terminate session limit silent
                     (after_run silent "sleep 5" [Returned spawned; Returned killed])))
     = [].
Proof.
  split.
  - exact (proj1 (terminate_never_narrates_kill session limit narrated
                    (after_run silent "sleep 5" [Returned spawned; Returned killed]))).
  - exact (proj2 (terminate_never_narrates_kill session limit silent
                    (after_run silent "sleep 5" [Returned spawned; Returned killed]))
             eq_refl).
Defined.

(** A caller that terminates before and after the run and reads the
    output in between. *)
Lemma lifecycle_invariant_witness :
  console (perform_all session limit silent
             [CallTerminate; CallRun; CallGetOutput; CallTerminate; CallGetPid]
             (init silent "sleep 5" "10.0.0.7" "john" None
                [Returned spawned; Returned killed]))
  = []
  /\ lifecycle (perform_all session limit silent
                  [CallTerminate; CallRun; CallGetOutput; CallTerminate; CallGetPid]
                  (init silent "sleep 5" "10.0.0.7" "john" None
                     [Returned spawned; Returned killed])).
Proof.
  destruct (lifecycle_invariant session limit silent "sleep 5" "10.0.0.7" "john" None
              [Returned spawned; Returned killed]
              [CallTerminate; CallRun; CallGetOutput; CallTerminate; CallGetPid])
    as (Hlife & _ & _ & Hquiet).
  exact (conj (Hquiet eq_refl) Hlife).
Defined.

(** [main] for a host text that names a user, which Fabric refuses
    beside [-u], and for a plain host. *)
Lemma main_submits_one_call_witness :
  (ending (main session limit connecting initial_globals
             "sleep 5" "bob@10.0.0.7" "john" None 0 [Returned spawned])
   = Raise (Fault shorthand_clash)
   /\ calls (main session limit connecting initial_globals
               "sleep 5" "bob@10.0.0.7" "john" None 0 [Returned spawned])
      = []
   /\ printed (main session limit connecting initial_globals
                 "sleep 5" "bob@10.0.0.7" "john" None 0 [Returned spawned])
      = [])
  /\ calls (main session limit connecting initial_globals
              "sleep 5" "10.0.0.7" "john" None 0 [Returned spawned])
     = [{| inv_client := {| conn_host := "10.0.0.7"; conn_user := "john";
                            connect_kwargs := [] |};
           inv_command := "sleep 5 & echo $!";
           inv_hide := true |}].
Proof.
  split.
  - exact (main_submits_one_call session limit connecting initial_globals
             "sleep 5" "bob@10.0.0.7" "john" None 0 [Returned spawned]).
  - exact (main_submits_one_call session limit connecting initial_globals
             "sleep 5" "10.0.0.7" "john" None 0 [Returned spawned]).
Defined.

(** [main] for [echo hello]: with one [-v] on a fresh module; without
    [-v] on a fresh module; and without [-v] after an earlier call with
    two, which left the globals set. *)
Lemma main_console_witness :
  printed (main session limit connecting initial_globals
             "echo hello" "10.0.0.7" "john" None 1 [Returned hello])
  = ["Connect to host: 10.0.0.7" ++ PyStr.NL ++ "With user: john";
     "Run command: echo hello";
     "PID of process: 4242";
     "Execution output: hello" ++ PyStr.NL;
     "Result code: 0"]
  /\ printed (main session limit connecting initial_globals
                 "echo hello" "10.0.0.7" "john" None 0 [Returned hello])
     = []
  /\ printed (main session limit connecting
                 (globals_left
                    (main session limit connecting initial_globals
                       "echo hello" "10.0.0.7" "john" None 2 [Returned hello]))
                 "echo hello" "10.0.0.7" "john" None 0 [Returned hello])
     = transcript "echo hello" "10.0.0.7" "john" hello.
Proof.
  destruct (main_console session limit connecting initial_globals
              "echo hello" "10.0.0.7" "john" None 1 [Returned hello])
    as (_ & _ & _ & _ & Hloud).
  destruct (main_console session limit connecting initial_globals
              "echo hello" "10.0.0.7" "john" None 0 [Returned hello])
    as (_ & _ & Hquiet & _).
  destruct (main_console session limit connecting
              (globals_left
                 (main session limit connecting initial_globals
                    "echo hello" "10.0.0.7" "john" None 2 [Returned hello]))
              "echo hello" "10.0.0.7" "john" None 0 [Returned hello])
    as (_ & _ & _ & _ & Hkept).
  exact (conj (Hloud hello 4242%Z eq_refl eq_refl eq_refl eq_refl eq_refl)
           (conj (Hquiet eq_refl)
              (Hkept hello 4242%Z eq_refl eq_refl eq_refl eq_refl eq_refl))).
Defined.

(** A timeout with and without [debug]: the same state, the same error
    but for the hidden context. *)
Lemma debug_changes_only_context_witness :
  fst (run session silent (fresh silent "sleep 5" [Faulted timeout]))
  = Raise (RemoteCommandException "Timeout opening channel." (Some timeout) true)
  /\ fst (run session {| debug := true; print_statistic := false |}
            (fresh silent "sleep 5" [Faulted timeout]))
     = Raise (RemoteCommandException "Timeout opening channel." (Some timeout) false)
  /\ snd (run session silent (fresh silent "sleep 5" [Faulted timeout]))
     = snd (run session {| debug := true; print_statistic := false |}
              (fresh silent "sleep 5" [Faulted timeout])).
Proof.
  split; [reflexivity|]. split; [reflexivity|].
  exact (proj2 (proj1 (debug_changes_only_context session limit silent
                         {| debug := true; print_statistic := false |}
                         (fresh silent "sleep 5" [Faulted timeout]) eq_refl))).
Defined.
